(** * The upstream HTTP proxy of oauth2-proxy (pkg/upstream/http.go)

    A shallow embedding of the request dispatcher [httpUpstreamProxy], of
    the constructors [newHTTPUpstreamProxy], [newReverseProxy],
    [newWebSocketReverseProxy] and of the two Director wrappers
    [setProxyDirector] and [setProxyUpstreamHostHeader], together with the
    small part of the Go libraries they call (net/textproto header keys,
    strings.EqualFold, net/url, net/http/httputil.ReverseProxy, hmacauth).

    Go strings are byte strings: they are modelled by [string], whose
    characters are the 256 bytes.  A [http.Header] is a map from canonical
    header names to the list of values received under that name. *)

From stdpp Require Import base strings gmap list option.
From Stdlib Require Import ZArith Ascii String Bool.

Local Open Scope string_scope.
Local Open Scope Z_scope.

(** ** Bytes and strings *)

Definition byte (c : ascii) : Z := Z.of_N (N_of_ascii c).

Definition ofByte (z : Z) : ascii := ascii_of_N (Z.to_N z).

(** utf8.RuneSelf: bytes below it are single-byte runes. *)
Definition RuneSelf : Z := 128.

Definition isLowerByte (z : Z) : bool := (97 <=? z) && (z <=? 122).
Definition isUpperByte (z : Z) : bool := (65 <=? z) && (z <=? 90).

(** 'a' - 'A' *)
Definition toLower : Z := 32.

(** strings.HasPrefix *)
Fixpoint HasPrefix (s p : string) : bool :=
  match p, s with
  | EmptyString, _ => true
  | String b p', String a s' => if Ascii.eqb a b then HasPrefix s' p' else false
  | String _ _, EmptyString => false
  end.

(** strings.Contains *)
Fixpoint Contains (s sub : string) : bool :=
  HasPrefix s sub ||
  match s with
  | EmptyString => false
  | String _ s' => Contains s' sub
  end.

(** strings.ToLower on ASCII letters, other bytes unchanged. *)
Definition lowerByte (c : ascii) : ascii :=
  if isUpperByte (byte c) then ofByte (byte c + toLower) else c.

Fixpoint asciiLower (s : string) : string :=
  match s with
  | EmptyString => EmptyString
  | String c s' => String (lowerByte c) (asciiLower s')
  end.

(** The bytes of the string are all single-byte runes. *)
Fixpoint singleByte (s : string) : bool :=
  match s with
  | EmptyString => true
  | String c s' => (byte c <? RuneSelf) && singleByte s'
  end.

(** All 256 bytes. *)
Definition allAscii : list ascii := map ascii_of_nat (seq 0 256).

(** One round of the fast path of strings.EqualFold on two single-byte
    runes: equal, or an upper-case letter and its lower-case form. *)
Definition foldStep (a b : ascii) : bool :=
  let sr := byte a in
  let tr := byte b in
  if tr =? sr then true
  else isUpperByte (Z.min sr tr) && (Z.max sr tr =? Z.min sr tr + toLower).

(** On single-byte runes the fast path is taken, and its round agrees
    with comparing the lower-case forms. *)
Definition foldStepAgrees (a b : ascii) : bool :=
  implb ((byte a <? RuneSelf) && (byte b <? RuneSelf))
        (negb (RuneSelf <=? Z.lor (byte a) (byte b))
         && Bool.eqb (foldStep a b) (Ascii.eqb (lowerByte a) (lowerByte b))).

(** ** net/textproto: canonical header keys *)

Module textproto.

(** The token characters of RFC 7230 (textproto's isTokenTable). *)
Definition validHeaderFieldByte (c : ascii) : bool :=
  let z := byte c in
  isLowerByte z || isUpperByte z || ((48 <=? z) && (z <=? 57)) ||
  existsb (Z.eqb z) [33; 35; 36; 37; 38; 39; 42; 43; 45; 46; 94; 95; 96; 124; 126].

Fixpoint allValid (s : string) : bool :=
  match s with
  | EmptyString => true
  | String c s' => validHeaderFieldByte c && allValid s'
  end.

(** The rewriting loop of canonicalMIMEHeaderKey: upper case for the
    first letter and for a letter after a dash, lower case elsewhere. *)
Fixpoint canonical (upper : bool) (s : string) : string :=
  match s with
  | EmptyString => EmptyString
  | String c s' =>
      let z := byte c in
      let z' :=
        if upper && isLowerByte z then z - toLower
        else if negb upper && isUpperByte z then z + toLower
        else z in
      String (ofByte z') (canonical (z' =? 45) s')
  end.

(** A key that holds a byte outside the token characters is returned
    unchanged. *)
Definition CanonicalMIMEHeaderKey (s : string) : string :=
  if allValid s then canonical true s else s.

End textproto.

(** ** net/http: headers *)

Abbreviation Header := (gmap string (list string)).

Definition Header_Get (h : Header) (key : string) : string :=
  match h !! textproto.CanonicalMIMEHeaderKey key with
  | Some (v :: _) => v
  | _ => ""
  end.

Definition Header_Set (h : Header) (key value : string) : Header :=
  <[textproto.CanonicalMIMEHeaderKey key := [value]]> h.

(** ** The data of a request *)

Module url.

(** net/url's URL, without its user-info field. *)
Record URL := {
  Scheme : string;
  Opaque : string;
  Host : string;
  Path : string;
  RawPath : string;
  ForceQuery : bool;
  RawQuery : string;
  Fragment : string
}.

End url.

Module middleware.

(** Modelled from the spec: the RequestScope of pkg/apis/middleware, which
    is not part of the sources.  Only the field this package writes, the
    upstream identifier, is kept. *)
Record RequestScope := { Upstream : string }.

End middleware.

Module http.

Record Request := {
  Method : string;
  URL : url.URL;
  Header : gmap string (list string);
  Host : string;
  RequestURI : string;
  (** the *RequestScope held by the request's context, nil when absent *)
  Scope : option middleware.RequestScope
}.

(** What a handler has written to its http.ResponseWriter so far. *)
Record ResponseWriter := {
  rwHeader : gmap string (list string);
  rwStatus : option Z;
  rwBody : string
}.

Record Response := {
  StatusCode : Z;
  respHeader : gmap string (list string);
  Body : string
}.

Definition StatusBadGateway : Z := 502.

(** ResponseWriter.WriteHeader: the first status code written stands. *)
Definition WriteHeader (rw : ResponseWriter) (code : Z) : ResponseWriter :=
  match rwStatus rw with
  | Some _ => rw
  | None => {| rwHeader := rwHeader rw; rwStatus := Some code; rwBody := rwBody rw |}
  end.

(** net.Dialer, the two fields the package sets (nanoseconds). *)
Record Dialer := { Timeout : Z; KeepAlive : Z }.

Record TLSConfig := { InsecureSkipVerify : bool }.

Variant ProxyFunc := ProxyFromEnvironment.

(** http.Transport, the fields the package sets; durations in nanoseconds.
    A field left out of a composite literal has its zero value. *)
Record Transport := {
  Proxy : option ProxyFunc;
  DialContext : option Dialer;
  ForceAttemptHTTP2 : bool;
  MaxIdleConns : Z;
  IdleConnTimeout : Z;
  TLSHandshakeTimeout : Z;
  ExpectContinueTimeout : Z;
  TLSClientConfig : option TLSConfig
}.

(** The zero value &http.Transport{}. *)
Definition zeroTransport : Transport :=
  {| Proxy := None; DialContext := None; ForceAttemptHTTP2 := false;
     MaxIdleConns := 0; IdleConnTimeout := 0; TLSHandshakeTimeout := 0;
     ExpectContinueTimeout := 0; TLSClientConfig := None |}.

End http.

Module time.
Definition Second : Z := 1000000000.
End time.

Module options.

(** options.Upstream, the fields read here; a nil pointer is [None]. *)
Record Upstream := {
  ID : string;
  InsecureSkipTLSVerify : bool;
  PassHostHeader : option bool;
  ProxyWebSockets : option bool;
  FlushInterval : option Z
}.

Record SignatureData := { Hash : Z; Key : string }.

End options.

Module hmacauth.

(** The value NewHmacAuth builds: hash, key, signature header, and the
    names of the signed headers in canonical form.  (NewHmacAuth panics
    on a hash that is not linked in; the options are validated before an
    upstream proxy is built.) *)
Record HmacAuth := {
  hash : Z;
  key : string;
  header : string;
  headers : list string
}.

Definition NewHmacAuth (h : Z) (k : string) (hdr : string) (hdrs : list string) : HmacAuth :=
  {| hash := h; key := k; header := hdr;
     headers := map textproto.CanonicalMIMEHeaderKey hdrs |}.

End hmacauth.

(** ** What the package takes from outside

    Library code and the network, which the package calls and which is not
    modelled further. *)
Class Externals := {
  (** strings.EqualFold from its hasUnicode label on: the comparison of the
      two remaining suffixes by Unicode simple folding *)
  equalFoldUnicode : string -> string -> bool;
  (** net/url's URL.EscapedPath *)
  EscapedPath : url.URL -> string;
  (** httputil's joinURLPath: the joined path and raw path *)
  joinURLPath : url.URL -> url.URL -> string * string;
  (** hmacauth's RequestSignature: the MAC of the method, the signed
      headers and the path of a request, with the algorithm's name *)
  RequestSignature : hmacauth.HmacAuth -> http.Request -> string;
  (** httputil.ReverseProxy.ServeHTTP between the Director and the round
      trip: from the inbound request and the headers the Director left,
      the headers that are sent (hop-by-hop headers and those Connection
      names removed, Connection and Upgrade put back for a protocol
      upgrade, X-Forwarded-For extended, User-Agent kept from its
      default), or the error of a request the library turns down before
      any round trip *)
  outboundHeader :
    http.Request -> gmap string (list string) -> gmap string (list string) + string;
  (** Transport.RoundTrip: the upstream's response, or the error of a
      failed connection; nil stands for http.DefaultTransport *)
  RoundTrip : option http.Transport -> http.Request -> http.Response + string;
  (** httputil.ReverseProxy.ServeHTTP once a response has arrived, given
      the proxy's error handler, the response writer and the outbound
      request: headers, status and body copied to the client, or the
      connection relayed after 101 Switching Protocols *)
  deliverResponse :
    (http.ResponseWriter -> http.Request -> string -> http.ResponseWriter) ->
    http.ResponseWriter -> http.Request -> http.Response -> http.ResponseWriter;
  (** options.DefaultUpstreamFlushInterval *)
  DefaultUpstreamFlushInterval : Z
}.

Section Package.

Context `{Externals}.

(** ** strings.EqualFold

    The loop over the common prefix is the library's fast path for
    single-byte runes: equal bytes, or an upper-case letter and its
    lower-case form.  At the first byte that is not a single-byte rune the
    library goes on with Unicode folding on what is left. *)
Fixpoint EqualFold (s t : string) : bool :=
  match s, t with
  | String a s', String b t' =>
      let sr := byte a in
      let tr := byte b in
      if RuneSelf <=? Z.lor sr tr then equalFoldUnicode s t
      else if tr =? sr then EqualFold s' t'
      else
        let lo := Z.min sr tr in
        let hi := Z.max sr tr in
        if isUpperByte lo && (hi =? lo + toLower) then EqualFold s' t'
        else false
  | EmptyString, EmptyString => true
  | _, _ => false
  end.

(** ** net/url: the request target of a URL *)

(** URL.RequestURI: the encoded path?query or opaque?query string that is
    written on the request line. *)
Definition URL_RequestURI (u : url.URL) : string :=
  let result :=
    if String.eqb (url.Opaque u) "" then
      let p := EscapedPath u in
      if String.eqb p "" then "/" else p
    else if HasPrefix (url.Opaque u) "//" then
      url.Scheme u ++ ":" ++ url.Opaque u
    else url.Opaque u in
  if url.ForceQuery u || negb (String.eqb (url.RawQuery u) "")
  then result ++ "?" ++ url.RawQuery u
  else result.

(** ** Field updates on *http.Request *)

Definition setURL (req : http.Request) (u : url.URL) : http.Request :=
  {| http.Method := http.Method req; http.URL := u;
     http.Header := http.Header req; http.Host := http.Host req;
     http.RequestURI := http.RequestURI req; http.Scope := http.Scope req |}.

Definition setHost (req : http.Request) (h : string) : http.Request :=
  {| http.Method := http.Method req; http.URL := http.URL req;
     http.Header := http.Header req; http.Host := h;
     http.RequestURI := http.RequestURI req; http.Scope := http.Scope req |}.

Definition setHeader (req : http.Request) (h : Header) : http.Request :=
  {| http.Method := http.Method req; http.URL := http.URL req;
     http.Header := h; http.Host := http.Host req;
     http.RequestURI := http.RequestURI req; http.Scope := http.Scope req |}.

Definition setScope (req : http.Request) (s : option middleware.RequestScope) : http.Request :=
  {| http.Method := http.Method req; http.URL := http.URL req;
     http.Header := http.Header req; http.Host := http.Host req;
     http.RequestURI := http.RequestURI req; http.Scope := s |}.

(** u.Path = "" *)
Definition clearPath (u : url.URL) : url.URL :=
  {| url.Scheme := url.Scheme u; url.Opaque := url.Opaque u;
     url.Host := url.Host u; url.Path := ""; url.RawPath := url.RawPath u;
     url.ForceQuery := url.ForceQuery u; url.RawQuery := url.RawQuery u;
     url.Fragment := url.Fragment u |}.

(** ** net/http/httputil: the reverse proxy *)

(** ProxyErrorHandler: func(http.ResponseWriter, *http.Request, error),
    by what it leaves in the response writer. *)
Definition ProxyErrorHandler : Type :=
  http.ResponseWriter -> http.Request -> string -> http.ResponseWriter.

Record ReverseProxy := {
  Director : http.Request -> http.Request;
  Transport : option http.Transport;
  FlushInterval : Z;
  ErrorHandler : option ProxyErrorHandler
}.

(** httputil's rewriteRequestURL, the Director of a single-host proxy: the
    scheme and host of the target, the joined paths, the two queries. *)
Definition rewriteRequestURL (target : url.URL) (req : http.Request) : http.Request :=
  let u := http.URL req in
  let u1 :=
    {| url.Scheme := url.Scheme target; url.Opaque := url.Opaque u;
       url.Host := url.Host target; url.Path := url.Path u;
       url.RawPath := url.RawPath u; url.ForceQuery := url.ForceQuery u;
       url.RawQuery := url.RawQuery u; url.Fragment := url.Fragment u |} in
  let joined := joinURLPath target u1 in
  let targetQuery := url.RawQuery target in
  let query :=
    if String.eqb targetQuery "" || String.eqb (url.RawQuery u) ""
    then targetQuery ++ url.RawQuery u
    else targetQuery ++ "&" ++ url.RawQuery u in
  setURL req
    {| url.Scheme := url.Scheme u1; url.Opaque := url.Opaque u1;
       url.Host := url.Host u1; url.Path := fst joined;
       url.RawPath := snd joined; url.ForceQuery := url.ForceQuery u1;
       url.RawQuery := query; url.Fragment := url.Fragment u1 |}.

Definition NewSingleHostReverseProxy (target : url.URL) : ReverseProxy :=
  {| Director := rewriteRequestURL target; Transport := None;
     FlushInterval := 0; ErrorHandler := None |}.

(** ReverseProxy.defaultErrorHandler: it logs the error and writes the
    status, and no body. *)
Definition defaultErrorHandler : ProxyErrorHandler :=
  fun rw _ _ => http.WriteHeader rw http.StatusBadGateway.

Definition getErrorHandler (p : ReverseProxy) : ProxyErrorHandler :=
  match ErrorHandler p with
  | Some h => h
  | None => defaultErrorHandler
  end.

(** ** Serving one request

    A handler runs on a request and a response writer, both of which it
    may change, and it may panic.  The trace records, in order, what was
    done to the request and which handler it was handed to. *)

Variant Target := WebSocketProxy | PlainProxy.

Variant Event :=
  | ScopeStamped (id : string)
  | RequestHeaderSet (name value : string)
  | RequestSigned (signature : string)
  | HandedTo (to : Target) (req : http.Request)
  | ErrorHandlerCalled (configured : bool) (err : string).

Record Exchange := {
  xReq : http.Request;
  xRw : http.ResponseWriter;
  xTrace : list Event
}.

Variant Outcome (A : Type) :=
  | Returned (a : A) (x : Exchange)
  | Panicked.

#[global] Arguments Returned {A} a x.
#[global] Arguments Panicked {A}.

Definition Serve (A : Type) : Type := Exchange -> Outcome A.

#[global] Instance Serve_ret : MRet Serve := fun A a x => Returned a x.

#[global] Instance Serve_bind : MBind Serve := fun A B f m x =>
  match m x with
  | Returned a x' => f a x'
  | Panicked => Panicked
  end.

Definition panic {A} : Serve A := fun _ => Panicked.

Definition getReq : Serve http.Request := fun x => Returned (xReq x) x.

Definition getRw : Serve http.ResponseWriter := fun x => Returned (xRw x) x.

Definition putReq (req : http.Request) : Serve unit := fun x =>
  Returned tt {| xReq := req; xRw := xRw x; xTrace := xTrace x |}.

Definition putRw (rw : http.ResponseWriter) : Serve unit := fun x =>
  Returned tt {| xReq := xReq x; xRw := rw; xTrace := xTrace x |}.

Definition emit (e : Event) : Serve unit := fun x =>
  Returned tt {| xReq := xReq x; xRw := xRw x; xTrace := xTrace x ++ [e] |}.

(** The outbound request of ReverseProxy.ServeHTTP: the copy of the
    inbound request as the Director rewrote it, with the headers the
    library sends; or the error of a request turned down before the round
    trip. *)
Definition outboundRequest (p : ReverseProxy) (req : http.Request) : http.Request + string :=
  let directed := Director p req in
  match outboundHeader req (http.Header directed) with
  | inl hdr => inl (setHeader directed hdr)
  | inr err => inr err
  end.

(** ReverseProxy.ServeHTTP: the Director rewrites the outbound copy of
    the request and the library finishes its headers; a request turned
    down there goes to the error handler as it came in; otherwise the
    transport sends the outbound request, and a failed round trip goes to
    the error handler with the outbound request, after which the handler
    returns.  What the library does with a response that arrived is left
    to [deliverResponse]; its panic on a copy that breaks off midway is
    not modelled, and no property below is about a response that
    arrived. *)
Definition ReverseProxy_ServeHTTP (p : ReverseProxy) : Serve unit :=
  req ← getReq;
  rw ← getRw;
  match outboundRequest p req with
  | inr err =>
      emit (ErrorHandlerCalled (bool_decide (is_Some (ErrorHandler p))) err);;
      putRw (getErrorHandler p rw req err)
  | inl outreq =>
      match RoundTrip (Transport p) outreq with
      | inr err =>
          emit (ErrorHandlerCalled (bool_decide (is_Some (ErrorHandler p))) err);;
          putRw (getErrorHandler p rw outreq err)
      | inl res => putRw (deliverResponse (getErrorHandler p) rw outreq res)
      end
  end.

(** hmacauth's SignRequest. *)
Definition SignRequest (auth : hmacauth.HmacAuth) : Serve unit :=
  req ← getReq;
  let signature := RequestSignature auth req in
  putReq (setHeader req (Header_Set (http.Header req) (hmacauth.header auth) signature));;
  emit (RequestSigned signature).

(** req.Header.Set *)
Definition reqHeaderSet (name value : string) : Serve unit :=
  req ← getReq;
  putReq (setHeader req (Header_Set (http.Header req) name value));;
  emit (RequestHeaderSet name value).

(** Modelled from the spec: middleware.GetRequestScope, which is not part
    of the sources: the scope object present on the request, nil when
    there is none. *)
Definition GetRequestScope (req : http.Request) : option middleware.RequestScope :=
  http.Scope req.

(** scope.Upstream = id, through the pointer: a nil scope panics. *)
Definition stampScope (scope : option middleware.RequestScope) (id : string) : Serve unit :=
  match scope with
  | None => panic
  | Some _ =>
      req ← getReq;
      putReq (setScope req (Some {| middleware.Upstream := id |}));;
      emit (ScopeStamped id)
  end.

(** ** pkg/upstream/http.go *)

Definition SignatureHeader : string := "GAP-Signature".

Definition SignatureHeaders : list string :=
  [ "Content-Length"; "Content-Md5"; "Content-Type"; "Date"; "Authorization";
    "X-Forwarded-User"; "X-Forwarded-Email"; "X-Forwarded-Preferred-User";
    "X-Forwarded-Access-Token"; "Cookie"; "Gap-Auth" ].

Record httpUpstreamProxy := {
  upstream : string;
  handler : ReverseProxy;
  wsHandler : option ReverseProxy;
  auth : option hmacauth.HmacAuth
}.

(** handler.ServeHTTP(rw, req) on one of the two proxies. *)
Definition handTo (t : Target) (p : ReverseProxy) : Serve unit :=
  req ← getReq;
  emit (HandedTo t req);;
  ReverseProxy_ServeHTTP p.

Definition ServeHTTP (h : httpUpstreamProxy) : Serve unit :=
  req ← getReq;
  stampScope (GetRequestScope req) (upstream h);;
  match auth h with
  | Some a =>
      rw ← getRw;
      reqHeaderSet "GAP-Auth" (Header_Get (http.rwHeader rw) "GAP-Auth");;
      SignRequest a
  | None => mret tt
  end;;
  req ← getReq;
  match wsHandler h with
  | Some ws =>
      if EqualFold (Header_Get (http.Header req) "Connection") "upgrade"
         && String.eqb (Header_Get (http.Header req) "Upgrade") "websocket"
      then handTo WebSocketProxy ws
      else handTo PlainProxy (handler h)
  | None => handTo PlainProxy (handler h)
  end.

Definition setProxyUpstreamHostHeader (proxy : ReverseProxy) (target : url.URL) : ReverseProxy :=
  let director := Director proxy in
  {| Director := fun req =>
       let req := director req in
       setHost req (url.Host target);
     Transport := Transport proxy;
     FlushInterval := FlushInterval proxy;
     ErrorHandler := ErrorHandler proxy |}.

Definition setProxyDirector (proxy : ReverseProxy) : ReverseProxy :=
  let director := Director proxy in
  {| Director := fun req =>
       let req := director req in
       let u := http.URL req in
       setURL req
         {| url.Scheme := url.Scheme u; url.Opaque := http.RequestURI req;
            url.Host := url.Host u; url.Path := url.Path u;
            url.RawPath := url.RawPath u; url.ForceQuery := false;
            url.RawQuery := ""; url.Fragment := url.Fragment u |};
     Transport := Transport proxy;
     FlushInterval := FlushInterval proxy;
     ErrorHandler := ErrorHandler proxy |}.

Definition withTransport (proxy : ReverseProxy) (t : http.Transport) : ReverseProxy :=
  {| Director := Director proxy; Transport := Some t;
     FlushInterval := FlushInterval proxy; ErrorHandler := ErrorHandler proxy |}.

Definition withFlushInterval (proxy : ReverseProxy) (d : Z) : ReverseProxy :=
  {| Director := Director proxy; Transport := Transport proxy;
     FlushInterval := d; ErrorHandler := ErrorHandler proxy |}.

Definition withErrorHandler (proxy : ReverseProxy) (eh : ProxyErrorHandler) : ReverseProxy :=
  {| Director := Director proxy; Transport := Transport proxy;
     FlushInterval := FlushInterval proxy; ErrorHandler := Some eh |}.

(** The transport literal of newReverseProxy. *)
Definition pooledTransport : http.Transport :=
  {| http.Proxy := Some http.ProxyFromEnvironment;
     http.DialContext :=
       Some {| http.Timeout := 0 * time.Second; http.KeepAlive := 0 * time.Second |};
     http.ForceAttemptHTTP2 := true;
     http.MaxIdleConns := 100;
     http.IdleConnTimeout := 90 * time.Second;
     http.TLSHandshakeTimeout := 10 * time.Second;
     http.ExpectContinueTimeout := 1 * time.Second;
     http.TLSClientConfig := None |}.

(** &http.Transport{TLSClientConfig: &tls.Config{InsecureSkipVerify: true}} *)
Definition insecureTransport : http.Transport :=
  {| http.Proxy := None; http.DialContext := None;
     http.ForceAttemptHTTP2 := false; http.MaxIdleConns := 0;
     http.IdleConnTimeout := 0; http.TLSHandshakeTimeout := 0;
     http.ExpectContinueTimeout := 0;
     http.TLSClientConfig := Some {| http.InsecureSkipVerify := true |} |}.

Definition newReverseProxy (target : url.URL) (up : options.Upstream)
    (errorHandler : option ProxyErrorHandler) : ReverseProxy :=
  let proxy := NewSingleHostReverseProxy target in
  let proxy :=
    match options.FlushInterval up with
    | Some d => withFlushInterval proxy d
    | None => withFlushInterval proxy DefaultUpstreamFlushInterval
    end in
  let proxy := withTransport proxy pooledTransport in
  let proxy :=
    if options.InsecureSkipTLSVerify up then withTransport proxy insecureTransport
    else proxy in
  let proxy := setProxyDirector proxy in
  let proxy :=
    match options.PassHostHeader up with
    | Some false => setProxyUpstreamHostHeader proxy target
    | _ => proxy
    end in
  match errorHandler with
  | Some eh => withErrorHandler proxy eh
  | None => proxy
  end.

Definition newWebSocketReverseProxy (u : url.URL) (skipTLSVerify : bool) : ReverseProxy :=
  let wsProxy := NewSingleHostReverseProxy u in
  if skipTLSVerify then withTransport wsProxy insecureTransport else wsProxy.

Definition newHTTPUpstreamProxy (up : options.Upstream) (u : url.URL)
    (sigData : option options.SignatureData)
    (errorHandler : option ProxyErrorHandler) : httpUpstreamProxy :=
  let u := clearPath u in
  let proxy := newReverseProxy u up errorHandler in
  let wsProxy :=
    match options.ProxyWebSockets up with
    | None | Some true =>
        Some (newWebSocketReverseProxy u (options.InsecureSkipTLSVerify up))
    | Some false => None
    end in
  let auth :=
    match sigData with
    | Some sd =>
        Some (hmacauth.NewHmacAuth (options.Hash sd) (options.Key sd)
                SignatureHeader SignatureHeaders)
    | None => None
    end in
  {| upstream := options.ID up; handler := proxy; wsHandler := wsProxy; auth := auth |}.

End Package.

(** ** Running the dispatcher on a fresh exchange *)

Section Runs.

Context `{Externals}.

Definition start (rw : http.ResponseWriter) (req : http.Request) : Exchange :=
  {| xReq := req; xRw := rw; xTrace := [] |}.

Definition dispatch (h : httpUpstreamProxy) (rw : http.ResponseWriter)
    (req : http.Request) : Outcome unit :=
  ServeHTTP h (start rw req).

Definition handoff (e : Event) : option (Target * http.Request) :=
  match e with
  | HandedTo t r => Some (t, r)
  | _ => None
  end.

(** The handler the request went to, and the request as it was handed
    over; [None] when the dispatcher panicked before. *)
Definition routed (h : httpUpstreamProxy) (rw : http.ResponseWriter)
    (req : http.Request) : option (Target * http.Request) :=
  match dispatch h rw req with
  | Returned _ x => head (omap handoff (xTrace x))
  | Panicked => None
  end.

Definition routedTo (h : httpUpstreamProxy) (rw : http.ResponseWriter)
    (req : http.Request) : option Target :=
  fst <$> routed h rw req.

(** The plain proxy alone on a fresh exchange. *)
Definition forward (p : ReverseProxy) (rw : http.ResponseWriter)
    (req : http.Request) : Outcome unit :=
  ReverseProxy_ServeHTTP p (start rw req).

Definition errorHandlerCalls (tr : list Event) : list (bool * string) :=
  omap (fun e => match e with
                 | ErrorHandlerCalled c err => Some (c, err)
                 | _ => None
                 end) tr.

(** The request after [scope.Upstream = id]. *)
Definition stamped (id : string) (req : http.Request) : http.Request :=
  setScope req (Some {| middleware.Upstream := id |}).

(** The request after [req.Header.Set("GAP-Auth", rw.Header().Get("GAP-Auth"))]. *)
Definition withGapAuth (rw : http.ResponseWriter) (req : http.Request) : http.Request :=
  setHeader req
    (Header_Set (http.Header req) "GAP-Auth" (Header_Get (http.rwHeader rw) "GAP-Auth")).

(** The request after [auth.SignRequest(req)]. *)
Definition signed (a : hmacauth.HmacAuth) (req : http.Request) : http.Request :=
  setHeader req
    (Header_Set (http.Header req) (hmacauth.header a) (RequestSignature a req)).

(** The condition of the dispatcher's branch, on the request it tests. *)
Definition upgradeRequested (req : http.Request) : bool :=
  EqualFold (Header_Get (http.Header req) "Connection") "upgrade"
  && String.eqb (Header_Get (http.Header req) "Upgrade") "websocket".

(** The request as the dispatcher hands it over. *)
Definition outbound (h : httpUpstreamProxy) (rw : http.ResponseWriter)
    (req : http.Request) : http.Request :=
  match auth h with
  | Some a => signed a (withGapAuth rw (stamped (upstream h) req))
  | None => stamped (upstream h) req
  end.

(** What the dispatcher does to the request before it hands it over. *)
Definition preparation (h : httpUpstreamProxy) (rw : http.ResponseWriter)
    (req : http.Request) : list Event :=
  ScopeStamped (upstream h) ::
  match auth h with
  | Some a =>
      [ RequestHeaderSet "GAP-Auth" (Header_Get (http.rwHeader rw) "GAP-Auth");
        RequestSigned (RequestSignature a (withGapAuth rw (stamped (upstream h) req))) ]
  | None => []
  end.

(** The handler the dispatcher's branch picks for a request. *)
Definition chosen (h : httpUpstreamProxy) (req : http.Request) : Target * ReverseProxy :=
  match wsHandler h with
  | Some ws =>
      if upgradeRequested req then (WebSocketProxy, ws) else (PlainProxy, handler h)
  | None => (PlainProxy, handler h)
  end.

(** What the chosen proxy adds to the trace: nothing, or the call of the
    error handler. *)
Definition aftermath (p : ReverseProxy) (req : http.Request) : list Event :=
  match outboundRequest p req with
  | inr err => [ErrorHandlerCalled (bool_decide (is_Some (ErrorHandler p))) err]
  | inl outreq =>
      match RoundTrip (Transport p) outreq with
      | inl _ => []
      | inr err => [ErrorHandlerCalled (bool_decide (is_Some (ErrorHandler p))) err]
      end
  end.

End Runs.

(** ** The wording of the specification *)

(** "The Connection header case-insensitively contains the token upgrade." *)
Definition connectionContainsUpgrade (req : http.Request) : bool :=
  Contains (asciiLower (Header_Get (http.Header req) "Connection")) "upgrade".

(** "The Upgrade header equals the literal websocket." *)
Definition upgradeIsWebsocket (req : http.Request) : bool :=
  String.eqb (Header_Get (http.Header req) "Upgrade") "websocket".

(** "The raw target contains a percent-encoded slash." *)
Definition hasEncodedSlash (target : string) : bool :=
  Contains target "%2F" || Contains target "%2f".

(** "An ordered list of rewrite steps applied in sequence, each taking and
    returning the request." *)
Definition applySteps (steps : list (http.Request -> http.Request))
    (req : http.Request) : http.Request :=
  fold_left (fun r step => step r) steps req.

(** The own mutation of [setProxyDirector]. *)
Definition preserveRawTarget (req : http.Request) : http.Request :=
  let u := http.URL req in
  setURL req
    {| url.Scheme := url.Scheme u; url.Opaque := http.RequestURI req;
       url.Host := url.Host u; url.Path := url.Path u;
       url.RawPath := url.RawPath u; url.ForceQuery := false;
       url.RawQuery := ""; url.Fragment := url.Fragment u |}.

(** The own mutation of [setProxyUpstreamHostHeader]. *)
Definition overrideHost (target : url.URL) (req : http.Request) : http.Request :=
  setHost req (url.Host target).

Definition directorSteps `{Externals} (target : url.URL) (up : options.Upstream)
    : list (http.Request -> http.Request) :=
  [rewriteRequestURL target; preserveRawTarget] ++
  match options.PassHostHeader up with
  | Some false => [overrideHost target]
  | _ => []
  end.

(** ** A sample world

    An upstream that refuses every connection, for the examples below. *)

(** The headers httputil removes from the outbound request. *)
Definition hopHeaders : list string :=
  [ "Connection"; "Proxy-Connection"; "Keep-Alive"; "Proxy-Authenticate";
    "Proxy-Authorization"; "Te"; "Trailer"; "Transfer-Encoding"; "Upgrade" ].

Definition stripHopByHop (hdr : Header) : Header :=
  foldr delete hdr hopHeaders.

Definition refusing : Externals :=
  {| equalFoldUnicode := fun _ _ => false;
     EscapedPath := fun u =>
       if String.eqb (url.RawPath u) "" then url.Path u else url.RawPath u;
     joinURLPath := fun a b =>
       (url.Path a ++ url.Path b, url.RawPath a ++ url.RawPath b);
     RequestSignature := fun a req =>
       "sha1 " ++ http.Method req ++ " " ++ Header_Get (http.Header req) "Gap-Auth";
     outboundHeader := fun _ hdr => inl (stripHopByHop hdr);
     RoundTrip := fun _ _ => inr "dial tcp: connection refused";
     deliverResponse := fun _ rw _ res =>
       {| http.rwHeader := http.rwHeader rw;
          http.rwStatus := Some (http.StatusCode res);
          http.rwBody := http.rwBody rw ++ http.Body res |};
     DefaultUpstreamFlushInterval := 1 * time.Second |}.

Definition backend : url.URL :=
  {| url.Scheme := "http"; url.Opaque := ""; url.Host := "backend.local";
     url.Path := "/"; url.RawPath := ""; url.ForceQuery := false;
     url.RawQuery := ""; url.Fragment := "" |}.

Definition sampleUpstream (passHost websockets : option bool) (skip : bool)
    : options.Upstream :=
  {| options.ID := "backend"; options.InsecureSkipTLSVerify := skip;
     options.PassHostHeader := passHost; options.ProxyWebSockets := websockets;
     options.FlushInterval := None |}.

Definition parsed (path rawPath rawQuery : string) : url.URL :=
  {| url.Scheme := ""; url.Opaque := ""; url.Host := "";
     url.Path := path; url.RawPath := rawPath; url.ForceQuery := false;
     url.RawQuery := rawQuery; url.Fragment := "" |}.

Definition sampleRequest (target : string) (u : url.URL) (hdr : Header)
    (scope : option middleware.RequestScope) : http.Request :=
  {| http.Method := "GET"; http.URL := u; http.Header := hdr;
     http.Host := "client.example"; http.RequestURI := target;
     http.Scope := scope |}.

Definition freshWriter : http.ResponseWriter :=
  {| http.rwHeader := ∅; http.rwStatus := None; http.rwBody := "" |}.

Definition someScope : option middleware.RequestScope :=
  Some {| middleware.Upstream := "" |}.

Definition sampleKey : options.SignatureData :=
  {| options.Hash := 3; options.Key := "secret" |}.

(** GET /a%2Fb?x=1 *)
Definition encodedRequest : http.Request :=
  sampleRequest "/a%2Fb?x=1" (parsed "/a/b" "/a%2Fb" "x=1") ∅ someScope.

(** GET / *)
Definition rootRequest (scope : option middleware.RequestScope) : http.Request :=
  sampleRequest "/" (parsed "/" "" "") ∅ scope.

(** GET /chat asking for an upgrade, with the given Connection value. *)
Definition upgradeHeaders (connection : string) : Header :=
  Header_Set (Header_Set ∅ "Connection" connection) "Upgrade" "websocket".

Definition chatRequest (connection : string) : http.Request :=
  sampleRequest "/chat" (parsed "/chat" "" "") (upgradeHeaders connection) someScope.

(** An error handler that renders a page. *)
Definition sampleErrorPage : ProxyErrorHandler := fun rw _ err =>
  {| http.rwHeader := http.rwHeader rw;
     http.rwStatus := Some http.StatusBadGateway;
     http.rwBody := http.rwBody rw ++ "upstream unreachable: " ++ err |}.

(** The upstream URL with another path. *)
Definition withPath (u : url.URL) (p : string) : url.URL :=
  {| url.Scheme := url.Scheme u; url.Opaque := url.Opaque u;
     url.Host := url.Host u; url.Path := p; url.RawPath := url.RawPath u;
     url.ForceQuery := url.ForceQuery u; url.RawQuery := url.RawQuery u;
     url.Fragment := url.Fragment u |}.

(** An upstream URL with a path and a query of its own. *)
Definition backendWithQuery : url.URL :=
  {| url.Scheme := "http"; url.Opaque := ""; url.Host := "backend.local";
     url.Path := "/base/"; url.RawPath := ""; url.ForceQuery := false;
     url.RawQuery := "token=t"; url.Fragment := "" |}.

(** A request built without a raw target, as http.NewRequest leaves it. *)
Definition synthetic : http.Request :=
  sampleRequest "" (parsed "/a/b" "" "x=1") ∅ someScope.

(** GET /chat with two Connection values, Upgrade first, and a cookie. *)
Definition chatRequestTwoValues : http.Request :=
  sampleRequest "/chat" (parsed "/chat" "" "")
    (<["Cookie" := ["session=1"]]>
       (<["Connection" := ["Upgrade"; "keep-alive"]]> (upgradeHeaders "close")))
    someScope.

(** A response writer on which the session middleware has set Gap-Auth
    and another header. *)
Definition authWriter (other : string) : http.ResponseWriter :=
  {| http.rwHeader := Header_Set (Header_Set ∅ "GAP-Auth" "alice") "X-Other" other;
     http.rwStatus := None; http.rwBody := "" |}.

(** * Properties *)

Example canonical_gap_auth : textproto.CanonicalMIMEHeaderKey "GAP-Auth" = "Gap-Auth".
Proof. reflexivity. Qed.

Example canonical_gap_signature :
  textproto.CanonicalMIMEHeaderKey SignatureHeader = "Gap-Signature".
Proof. reflexivity. Qed.

Example header_get_set :
  Header_Get (Header_Set ∅ "upgrade" "websocket") "Upgrade" = "websocket".
Proof. vm_compute. reflexivity. Qed.

(** ** Headers *)

Lemma Header_Get_Set_eq (hdr : Header) (k v : string) :
  Header_Get (Header_Set hdr k v) k = v.
Proof. unfold Header_Get, Header_Set. by rewrite lookup_insert_eq. Qed.

Lemma Header_Get_Set_ne (hdr : Header) (k k' v : string) :
  textproto.CanonicalMIMEHeaderKey k ≠ textproto.CanonicalMIMEHeaderKey k' ->
  Header_Get (Header_Set hdr k v) k' = Header_Get hdr k'.
Proof. intros Hne. unfold Header_Get, Header_Set. by rewrite lookup_insert_ne. Qed.

Lemma Header_Get_unset (hdr : Header) (k : string) :
  hdr !! textproto.CanonicalMIMEHeaderKey k = None -> Header_Get hdr k = "".
Proof. intros E. unfold Header_Get. by rewrite E. Qed.

(** Two header maps that differ at most under one name are equal once
    that name is set. *)
Lemma Header_Set_overwrites (h1 h2 : Header) (k v : string) :
  delete (textproto.CanonicalMIMEHeaderKey k) h1 =
  delete (textproto.CanonicalMIMEHeaderKey k) h2 ->
  Header_Set h1 k v = Header_Set h2 k v.
Proof.
  intros E. unfold Header_Set.
  rewrite <- (insert_delete_eq h1), <- (insert_delete_eq h2).
  by rewrite E.
Qed.

(** ** The steps of the handler monad *)

Section Steps.

Context `{Externals}.

Lemma bind_Returned {A B} (m : Serve A) (f : A -> Serve B) (x x' : Exchange) (a : A) :
  m x = Returned a x' -> (m ≫= f) x = f a x'.
Proof. intros E. unfold mbind, Serve_bind. by rewrite E. Qed.

Lemma bind_Panicked {A B} (m : Serve A) (f : A -> Serve B) (x : Exchange) :
  m x = Panicked -> (m ≫= f) x = Panicked.
Proof. intros E. unfold mbind, Serve_bind. by rewrite E. Qed.

Lemma stampScope_nil (id : string) (x : Exchange) :
  stampScope None id x = Panicked.
Proof. reflexivity. Qed.

Lemma stampScope_some (sc : middleware.RequestScope) (id : string) (x : Exchange) :
  stampScope (Some sc) id x =
  Returned tt {| xReq := stamped id (xReq x); xRw := xRw x;
                 xTrace := xTrace x ++ [ScopeStamped id] |}.
Proof. reflexivity. Qed.

Lemma reqHeaderSet_run (k v : string) (x : Exchange) :
  reqHeaderSet k v x =
  Returned tt {| xReq := setHeader (xReq x) (Header_Set (http.Header (xReq x)) k v);
                 xRw := xRw x;
                 xTrace := xTrace x ++ [RequestHeaderSet k v] |}.
Proof. reflexivity. Qed.

Lemma SignRequest_run (a : hmacauth.HmacAuth) (x : Exchange) :
  SignRequest a x =
  Returned tt {| xReq := signed a (xReq x); xRw := xRw x;
                 xTrace := xTrace x ++ [RequestSigned (RequestSignature a (xReq x))] |}.
Proof. reflexivity. Qed.

(** The reverse proxy leaves the inbound request as it is and reports a
    request it turns down, or a failed round trip, to the error handler,
    once. *)
Lemma ReverseProxy_ServeHTTP_run (p : ReverseProxy) (x : Exchange) :
  ReverseProxy_ServeHTTP p x =
  Returned tt
    {| xReq := xReq x;
       xRw := match outboundRequest p (xReq x) with
              | inr err => getErrorHandler p (xRw x) (xReq x) err
              | inl outreq =>
                  match RoundTrip (Transport p) outreq with
                  | inl res => deliverResponse (getErrorHandler p) (xRw x) outreq res
                  | inr err => getErrorHandler p (xRw x) outreq err
                  end
              end;
       xTrace := xTrace x ++ aftermath p (xReq x) |}.
Proof.
  unfold ReverseProxy_ServeHTTP, aftermath, getReq, getRw, mbind, Serve_bind.
  destruct (outboundRequest p (xReq x)) as [outreq|err]; cbn;
    [destruct (RoundTrip _ _) as [res|err]; cbn|]; try reflexivity.
  rewrite app_nil_r. by destruct x.
Qed.

Lemma handTo_run (t : Target) (p : ReverseProxy) (x : Exchange) :
  handTo t p x =
  ReverseProxy_ServeHTTP p
    {| xReq := xReq x; xRw := xRw x; xTrace := xTrace x ++ [HandedTo t (xReq x)] |}.
Proof. reflexivity. Qed.

End Steps.

(** ** The dispatcher, step by step *)

Section Dispatcher.

Context `{Externals}.

Lemma dispatch_without_scope (h : httpUpstreamProxy) (rw : http.ResponseWriter)
    (req : http.Request) :
  GetRequestScope req = None -> dispatch h rw req = Panicked.
Proof.
  intros E. unfold dispatch, ServeHTTP.
  erewrite bind_Returned by reflexivity.
  apply bind_Panicked. cbn. rewrite E. apply stampScope_nil.
Qed.

Lemma dispatch_with_scope (h : httpUpstreamProxy) (rw : http.ResponseWriter)
    (req : http.Request) (sc : middleware.RequestScope) :
  GetRequestScope req = Some sc ->
  dispatch h rw req =
  ReverseProxy_ServeHTTP (snd (chosen h (outbound h rw req)))
    {| xReq := outbound h rw req; xRw := rw;
       xTrace := preparation h rw req ++
                 [HandedTo (fst (chosen h (outbound h rw req))) (outbound h rw req)] |}.
Proof.
  intros E.
  unfold dispatch, ServeHTTP, start, outbound, preparation, chosen, upgradeRequested.
  unfold stampScope, reqHeaderSet, SignRequest, handTo.
  unfold mbind, Serve_bind, getReq, getRw, putReq, emit, mret, Serve_ret; cbn.
  rewrite E; cbn.
  destruct (auth h) as [a|]; cbn;
    destruct (wsHandler h) as [ws|]; cbn;
    try destruct (EqualFold _ _ && _); reflexivity.
Qed.

Lemma dispatch_returns (h : httpUpstreamProxy) (rw : http.ResponseWriter)
    (req : http.Request) (sc : middleware.RequestScope) :
  GetRequestScope req = Some sc ->
  exists rw',
    dispatch h rw req =
    Returned tt
      {| xReq := outbound h rw req; xRw := rw';
         xTrace := preparation h rw req ++
                   HandedTo (fst (chosen h (outbound h rw req))) (outbound h rw req) ::
                   aftermath (snd (chosen h (outbound h rw req))) (outbound h rw req) |}.
Proof.
  intros E. rewrite (dispatch_with_scope _ _ _ _ E), ReverseProxy_ServeHTTP_run.
  cbn [xReq xRw xTrace]. eexists. by rewrite <- app_assoc.
Qed.

Lemma handoff_preparation (h : httpUpstreamProxy) (rw : http.ResponseWriter)
    (req : http.Request) :
  omap handoff (preparation h rw req) = [].
Proof. unfold preparation. by destruct (auth h). Qed.

Lemma handoff_aftermath (p : ReverseProxy) (req : http.Request) :
  omap handoff (aftermath p req) = [].
Proof.
  unfold aftermath. destruct (outboundRequest p req); [|done].
  by destruct (RoundTrip _ _).
Qed.

Lemma routed_with_scope (h : httpUpstreamProxy) (rw : http.ResponseWriter)
    (req : http.Request) (sc : middleware.RequestScope) :
  GetRequestScope req = Some sc ->
  routed h rw req = Some (fst (chosen h (outbound h rw req)), outbound h rw req).
Proof.
  intros E. unfold routed.
  destruct (dispatch_returns h rw req sc E) as [rw' ->]. cbn [xTrace].
  rewrite omap_app, handoff_preparation. reflexivity.
Qed.

Lemma routed_without_scope (h : httpUpstreamProxy) (rw : http.ResponseWriter)
    (req : http.Request) :
  GetRequestScope req = None -> routed h rw req = None.
Proof. intros E. unfold routed. by rewrite dispatch_without_scope. Qed.

Lemma outbound_Scope (h : httpUpstreamProxy) (rw : http.ResponseWriter)
    (req : http.Request) :
  http.Scope (outbound h rw req) = Some {| middleware.Upstream := upstream h |}.
Proof. unfold outbound. by destruct (auth h). Qed.

End Dispatcher.

(** ** The request scope *)

Section ScopeClaims.

Context `{Externals}.

(** C7: a request that carries no RequestScope makes the dispatcher's
    entry point panic; for a request that carries one, the dispatcher
    returns, the scope's upstream identifier is the dispatcher's own, the
    stamp is the first thing done, and the one hand-over to a forwarding
    handler comes after it, with the stamped scope on the request. *)
Theorem scope_required_and_stamped_first (h : httpUpstreamProxy)
    (rw : http.ResponseWriter) (req : http.Request) :
  (GetRequestScope req = None -> dispatch h rw req = Panicked) /\
  (forall sc, GetRequestScope req = Some sc ->
     exists x t pre post,
       dispatch h rw req = Returned tt x /\
       GetRequestScope (xReq x) = Some {| middleware.Upstream := upstream h |} /\
       xTrace x = (ScopeStamped (upstream h) :: pre ++ HandedTo t (xReq x) :: post)%list /\
       omap handoff pre = [] /\ omap handoff post = []).
Proof.
  split.
  - apply dispatch_without_scope.
  - intros sc E.
    destruct (dispatch_returns h rw req sc E) as [rw' ->].
    eexists _, _, (tail (preparation h rw req)), _. cbn [xReq xTrace].
    split; [reflexivity|]. split; [apply outbound_Scope|].
    split; [reflexivity|]. split.
    + unfold preparation; cbn. by destruct (auth h).
    + apply handoff_aftermath.
Qed.

End ScopeClaims.

(** ** Signing *)

Section SigningClaims.

Context `{Externals}.

Lemma newHTTPUpstreamProxy_upstream up u sd eh :
  upstream (newHTTPUpstreamProxy up u sd eh) = options.ID up.
Proof. reflexivity. Qed.

Lemma newHTTPUpstreamProxy_auth up u sd eh :
  auth (newHTTPUpstreamProxy up u sd eh) =
  (fun k => hmacauth.NewHmacAuth (options.Hash k) (options.Key k)
              SignatureHeader SignatureHeaders) <$> sd.
Proof. by destruct sd. Qed.

(** C4: with a SignatureContext the dispatcher sets the signature header
    to the computed signature before the one hand-over of the request,
    to whichever of the two proxies, and the request handed over carries
    it; without a SignatureContext the headers handed over are the
    request's own and nothing is signed. *)
Theorem signature_attached_before_handoff (up : options.Upstream) (u : url.URL)
    (sd : option options.SignatureData) (eh : option ProxyErrorHandler)
    (rw : http.ResponseWriter) (req : http.Request) (sc : middleware.RequestScope) :
  GetRequestScope req = Some sc ->
  exists x t out post,
    dispatch (newHTTPUpstreamProxy up u sd eh) rw req = Returned tt x /\
    omap handoff post = [] /\
    match sd with
    | Some k =>
        let a := hmacauth.NewHmacAuth (options.Hash k) (options.Key k)
                   SignatureHeader SignatureHeaders in
        let sig := RequestSignature a (withGapAuth rw (stamped (options.ID up) req)) in
        xTrace x =
          ([ ScopeStamped (options.ID up);
             RequestHeaderSet "GAP-Auth" (Header_Get (http.rwHeader rw) "GAP-Auth");
             RequestSigned sig;
             HandedTo t out ] ++ post)%list /\
        Header_Get (http.Header out) SignatureHeader = sig
    | None =>
        xTrace x = ([ScopeStamped (options.ID up); HandedTo t out] ++ post)%list /\
        http.Header out = http.Header req
    end.
Proof.
  intros E.
  destruct (dispatch_returns (newHTTPUpstreamProxy up u sd eh) rw req sc E) as [rw' ->].
  destruct sd as [k|];
    eexists _, _, _, _; (split; [reflexivity|]); (split; [apply handoff_aftermath|]).
  - split; [reflexivity|]. apply Header_Get_Set_eq.
  - split; reflexivity.
Qed.

(** C10: with signing configured, Gap-Auth is one of the signed headers,
    the request that is signed has its Gap-Auth header set to the value
    the response writer holds under that name (the empty string when it
    holds none), the overwrite comes right before the signature in the
    order of events, and the client's own Gap-Auth header has no part in
    what the dispatcher does. *)
Theorem gap_auth_taken_from_response_writer (up : options.Upstream) (u : url.URL)
    (k : options.SignatureData) (eh : option ProxyErrorHandler)
    (rw : http.ResponseWriter) (req : http.Request) (sc : middleware.RequestScope) :
  GetRequestScope req = Some sc ->
  let h := newHTTPUpstreamProxy up u (Some k) eh in
  let a := hmacauth.NewHmacAuth (options.Hash k) (options.Key k)
             SignatureHeader SignatureHeaders in
  let fromWriter := Header_Get (http.rwHeader rw) "GAP-Auth" in
  let toSign := withGapAuth rw (stamped (options.ID up) req) in
  In "Gap-Auth" (hmacauth.headers a) /\
  http.Header toSign !! "Gap-Auth" = Some [fromWriter] /\
  (http.rwHeader rw !! "Gap-Auth" = None -> fromWriter = "") /\
  (exists x t post,
     dispatch h rw req = Returned tt x /\
     xTrace x =
       ([ ScopeStamped (options.ID up);
          RequestHeaderSet "GAP-Auth" fromWriter;
          RequestSigned (RequestSignature a toSign);
          HandedTo t (signed a toSign) ] ++ post)%list) /\
  (forall hdr' : Header,
     delete "Gap-Auth" hdr' = delete "Gap-Auth" (http.Header req) ->
     dispatch h rw (setHeader req hdr') = dispatch h rw req).
Proof.
  intros E h a fromWriter toSign. split; [|split; [|split; [|split]]].
  - vm_compute. tauto.
  - unfold toSign, withGapAuth, Header_Set; cbn. apply lookup_insert_eq.
  - intros Hn. unfold fromWriter. by apply Header_Get_unset.
  - destruct (dispatch_returns h rw req sc E) as [rw' ->].
    eexists _, _, _. split; reflexivity.
  - intros hdr' Hd.
    assert (Hs : withGapAuth rw (stamped (upstream h) (setHeader req hdr')) =
                 withGapAuth rw (stamped (upstream h) req)).
    { unfold withGapAuth, stamped; cbn. f_equal.
      apply Header_Set_overwrites. exact Hd. }
    rewrite (dispatch_with_scope h rw (setHeader req hdr') sc) by exact E.
    rewrite (dispatch_with_scope h rw req sc) by exact E.
    unfold outbound, preparation. cbn [auth h newHTTPUpstreamProxy].
    by rewrite Hs.
Qed.

End SigningClaims.

(** ** Case folding of single-byte strings *)

Lemma allAscii_complete (a : ascii) : In a allAscii.
Proof.
  assert (E : existsb (Ascii.eqb a) allAscii = true).
  { destruct a as [[] [] [] [] [] [] [] []]; vm_compute; reflexivity. }
  apply existsb_exists in E. destruct E as (b & Hin & Heq).
  apply Ascii.eqb_eq in Heq. by subst.
Qed.

Lemma foldStep_table :
  forallb (fun a => forallb (foldStepAgrees a) allAscii) allAscii = true.
Proof. vm_compute. reflexivity. Qed.

Lemma foldStep_single_byte (a b : ascii) :
  byte a < RuneSelf -> byte b < RuneSelf ->
  (RuneSelf <=? Z.lor (byte a) (byte b)) = false /\
  foldStep a b = Ascii.eqb (lowerByte a) (lowerByte b).
Proof.
  intros Ha Hb.
  pose proof foldStep_table as T.
  rewrite forallb_forall in T. specialize (T a (allAscii_complete a)).
  rewrite forallb_forall in T. specialize (T b (allAscii_complete b)).
  unfold foldStepAgrees in T.
  apply Z.ltb_lt in Ha, Hb. rewrite Ha, Hb in T. cbn in T.
  apply andb_prop in T. destruct T as [T1 T2].
  split.
  - by apply negb_true_iff.
  - by apply Bool.eqb_prop.
Qed.

Section Folding.

Context `{Externals}.

Lemma EqualFold_cons (a b : ascii) (s t : string) :
  byte a < RuneSelf -> byte b < RuneSelf ->
  EqualFold (String a s) (String b t) = foldStep a b && EqualFold s t.
Proof.
  intros Ha Hb. destruct (foldStep_single_byte a b Ha Hb) as [E _].
  cbn [EqualFold]. unfold foldStep. cbv zeta. rewrite E.
  destruct (byte b =? byte a); [reflexivity|].
  by destruct (isUpperByte _ && _).
Qed.

(** On strings of single-byte runes [EqualFold] compares the lower-case
    forms; the Unicode part of the library is not reached. *)
Lemma EqualFold_single_byte (s t : string) :
  singleByte s = true -> singleByte t = true ->
  EqualFold s t = String.eqb (asciiLower s) (asciiLower t).
Proof.
  revert t. induction s as [|a s IH]; intros [|b t] Hs Ht; try reflexivity.
  cbn in Hs, Ht. apply andb_prop in Hs, Ht.
  destruct Hs as [Ha Hs], Ht as [Hb Ht].
  apply Z.ltb_lt in Ha, Hb.
  rewrite EqualFold_cons by assumption.
  destruct (foldStep_single_byte a b Ha Hb) as [_ ->].
  rewrite IH by assumption. cbn [asciiLower String.eqb].
  by destruct (Ascii.eqb _ _).
Qed.

End Folding.

(** ** Routing *)

Section RoutingClaims.

Context `{Externals}.

Lemma newHTTPUpstreamProxy_wsHandler up u sd eh :
  wsHandler (newHTTPUpstreamProxy up u sd eh) =
  match options.ProxyWebSockets up with
  | Some false => None
  | _ => Some (newWebSocketReverseProxy (clearPath u) (options.InsecureSkipTLSVerify up))
  end.
Proof.
  unfold newHTTPUpstreamProxy; cbn [wsHandler].
  destruct (options.ProxyWebSockets up) as [[]|]; reflexivity.
Qed.

(** Stamping and signing leave every header but Gap-Auth and the
    signature header as the client sent it. *)
Lemma outbound_keeps_header up u sd eh rw req (name : string) :
  textproto.CanonicalMIMEHeaderKey name ≠ "Gap-Auth" ->
  textproto.CanonicalMIMEHeaderKey name ≠ "Gap-Signature" ->
  Header_Get (http.Header (outbound (newHTTPUpstreamProxy up u sd eh) rw req)) name =
  Header_Get (http.Header req) name.
Proof.
  intros N1 N2. unfold outbound. rewrite newHTTPUpstreamProxy_auth.
  destruct sd as [k|]; [|reflexivity].
  cbn [fmap option_fmap option_map]. unfold signed, withGapAuth.
  cbn [http.Header setHeader stamped setScope hmacauth.header hmacauth.NewHmacAuth].
  rewrite !Header_Get_Set_ne; [reflexivity|..]; intros E;
    [apply N2 | apply N1]; by rewrite <- E.
Qed.

Lemma outbound_upgradeRequested up u sd eh rw req :
  upgradeRequested (outbound (newHTTPUpstreamProxy up u sd eh) rw req) =
  upgradeRequested req.
Proof.
  unfold upgradeRequested. by rewrite !outbound_keeps_header.
Qed.

Lemma routedTo_with_scope up u sd eh rw req sc :
  GetRequestScope req = Some sc ->
  routedTo (newHTTPUpstreamProxy up u sd eh) rw req =
  Some (match options.ProxyWebSockets up with
        | Some false => PlainProxy
        | _ => if upgradeRequested req then WebSocketProxy else PlainProxy
        end).
Proof.
  intros E. unfold routedTo. rewrite (routed_with_scope _ _ _ sc E).
  cbn [fmap option_fmap option_map fst]. f_equal.
  unfold chosen. rewrite newHTTPUpstreamProxy_wsHandler, outbound_upgradeRequested.
  destruct (options.ProxyWebSockets up) as [[]|]; try reflexivity;
    by destruct (upgradeRequested req).
Qed.

Lemma routedTo_without_scope h rw req :
  GetRequestScope req = None -> routedTo h rw req = None.
Proof. intros E. unfold routedTo. by rewrite routed_without_scope. Qed.

Lemma upgradeRequested_true (req : http.Request) :
  upgradeRequested req = true <->
  EqualFold (Header_Get (http.Header req) "Connection") "upgrade" = true /\
  Header_Get (http.Header req) "Upgrade" = "websocket".
Proof.
  unfold upgradeRequested. rewrite andb_true_iff, String.eqb_eq. reflexivity.
Qed.

(** C1, as the code has it: the dispatcher hands a request to the
    WebSocket proxy exactly when the request carries its scope, the
    upstream's WebSocket proxy exists, the whole Connection value equals
    upgrade under case folding, and the Upgrade value is websocket; every
    other request that carries its scope goes to the plain proxy.  For a
    Connection value of single-byte characters the folded comparison is
    equality of the lower-case forms.  Connection: Upgrade with Upgrade:
    websocket goes to the WebSocket proxy, Connection: close to the plain
    proxy whatever the Upgrade header. *)
Theorem websocket_routing (up : options.Upstream) (u : url.URL)
    (sd : option options.SignatureData) (eh : option ProxyErrorHandler)
    (rw : http.ResponseWriter) (req : http.Request) :
  let h := newHTTPUpstreamProxy up u sd eh in
  let conn := Header_Get (http.Header req) "Connection" in
  let upg := Header_Get (http.Header req) "Upgrade" in
  let upgrade :=
    options.ProxyWebSockets up ≠ Some false /\
    EqualFold conn "upgrade" = true /\ upg = "websocket" in
  (routedTo h rw req = Some WebSocketProxy <->
     is_Some (GetRequestScope req) /\ upgrade) /\
  (routedTo h rw req = Some PlainProxy <->
     is_Some (GetRequestScope req) /\ ~ upgrade) /\
  (singleByte conn = true ->
     (EqualFold conn "upgrade" = true <-> asciiLower conn = "upgrade")) /\
  (is_Some (GetRequestScope req) -> options.ProxyWebSockets up ≠ Some false ->
     conn = "Upgrade" -> upg = "websocket" ->
     routedTo h rw req = Some WebSocketProxy) /\
  (is_Some (GetRequestScope req) -> conn = "close" ->
     routedTo h rw req = Some PlainProxy).
Proof.
  intros h conn upg upgrade.
  assert (R : forall sc, GetRequestScope req = Some sc ->
            routedTo h rw req =
            Some (match options.ProxyWebSockets up with
                  | Some false => PlainProxy
                  | _ => if upgradeRequested req then WebSocketProxy else PlainProxy
                  end)) by (intros sc; apply routedTo_with_scope).
  assert (U : upgradeRequested req = true <->
              EqualFold conn "upgrade" = true /\ upg = "websocket")
    by apply upgradeRequested_true.
  split; [|split; [|split; [|split]]].
  - destruct (GetRequestScope req) as [sc|] eqn:E.
    + rewrite (R sc eq_refl). unfold upgrade.
      destruct (options.ProxyWebSockets up) as [[]|];
        destruct (upgradeRequested req); split; intros Hx;
        first
          [ discriminate Hx
          | reflexivity
          | solve [destruct Hx as (_ & Hw & _); exfalso; by apply Hw]
          | solve [destruct Hx as (_ & _ & Hc); apply U in Hc; discriminate]
          | solve [split; [by eexists | split; [discriminate | by apply U]]] ].
    + rewrite (routedTo_without_scope h rw req E).
      split; [discriminate|]. intros [[? ?] _]. discriminate.
  - destruct (GetRequestScope req) as [sc|] eqn:E.
    + rewrite (R sc eq_refl). unfold upgrade.
      destruct (options.ProxyWebSockets up) as [[]|];
        destruct (upgradeRequested req); split; intros Hx;
        first
          [ discriminate Hx
          | reflexivity
          | solve [split; [by eexists |
                   intros (Hw & Hc); first [by apply Hw | apply U in Hc; discriminate]]]
          | solve [destruct Hx as [_ Hn]; exfalso; apply Hn;
                   split; [discriminate | by apply U]] ].
    + rewrite (routedTo_without_scope h rw req E).
      split; [discriminate|]. intros [[? ?] _]. discriminate.
  - intros S. rewrite EqualFold_single_byte by (exact S || reflexivity).
    apply String.eqb_eq.
  - intros [sc E] Hw Hc Hu. rewrite (R sc E).
    assert (Q : upgradeRequested req = true).
    { apply U. fold conn. rewrite Hc. split; [reflexivity|exact Hu]. }
    rewrite Q. by destruct (options.ProxyWebSockets up) as [[]|].
  - intros [sc E] Hc. rewrite (R sc E).
    assert (Q : upgradeRequested req = false).
    { unfold upgradeRequested. fold conn. rewrite Hc. reflexivity. }
    rewrite Q. by destruct (options.ProxyWebSockets up) as [[]|].
Qed.

(** A Connection value that lists upgrade among other tokens is not the
    value upgrade: whatever the world, such a request goes to the plain
    proxy. *)
Lemma connection_token_list_not_upgrade up u sd eh rw req sc :
  GetRequestScope req = Some sc ->
  Header_Get (http.Header req) "Connection" = "keep-alive, Upgrade" ->
  routedTo (newHTTPUpstreamProxy up u sd eh) rw req = Some PlainProxy.
Proof.
  intros E C. rewrite (routedTo_with_scope up u sd eh rw req sc E).
  unfold upgradeRequested. rewrite C.
  by destruct (options.ProxyWebSockets up) as [[]|].
Qed.

(** C9: the WebSocket handler exists exactly when the proxy-websockets
    flag is unset or true; with the flag set to false there is none, no
    request is handed to the WebSocket proxy, and every request that
    carries its scope is handed to the plain proxy, whatever its
    Connection and Upgrade headers. *)
Theorem websockets_disabled (up : options.Upstream) (u : url.URL)
    (sd : option options.SignatureData) (eh : option ProxyErrorHandler) :
  let h := newHTTPUpstreamProxy up u sd eh in
  (is_Some (wsHandler h) <->
     options.ProxyWebSockets up = None \/ options.ProxyWebSockets up = Some true) /\
  (options.ProxyWebSockets up = Some false ->
     wsHandler h = None /\
     forall (rw : http.ResponseWriter) (req : http.Request),
       routedTo h rw req ≠ Some WebSocketProxy /\
       (is_Some (GetRequestScope req) -> routedTo h rw req = Some PlainProxy)).
Proof.
  intros h. split.
  - unfold h. rewrite newHTTPUpstreamProxy_wsHandler.
    destruct (options.ProxyWebSockets up) as [[]|]; split;
      try (intros _; by eexists); try (intros _; by auto);
      try (intros [? ?]; discriminate);
      intros [?|?]; discriminate.
  - intros F. split.
    + unfold h. rewrite newHTTPUpstreamProxy_wsHandler. by rewrite F.
    + intros rw req.
      destruct (GetRequestScope req) as [sc|] eqn:E.
      * unfold h. rewrite (routedTo_with_scope up u sd eh rw req sc E), F.
        split; [discriminate|reflexivity].
      * rewrite (routedTo_without_scope h rw req E).
        split; [discriminate|]. intros [? ?]; discriminate.
Qed.

End RoutingClaims.

(** ** The Director of the plain proxy *)

Lemma Contains_app_r (pre s sub : string) :
  Contains s sub = true -> Contains (pre ++ s) sub = true.
Proof.
  intros C. induction pre as [|c pre IH]; [exact C|].
  change (Contains (String c (pre ++ s)) sub = true).
  cbn [Contains]. rewrite IH. apply orb_true_r.
Qed.

Lemma Contains_nonempty (s sub : string) :
  sub ≠ "" -> Contains s sub = true -> s ≠ "".
Proof.
  intros Hs C ->. destruct sub; [done|]. discriminate.
Qed.

Section DirectorClaims.

Context `{Externals}.

Lemma Director_setProxyDirector (p : ReverseProxy) (req : http.Request) :
  Director (setProxyDirector p) req = preserveRawTarget (Director p req).
Proof. reflexivity. Qed.

Lemma Director_setProxyUpstreamHostHeader (p : ReverseProxy) (target : url.URL)
    (req : http.Request) :
  Director (setProxyUpstreamHostHeader p target) req = overrideHost target (Director p req).
Proof. reflexivity. Qed.

Lemma Director_newReverseProxy target up eh req :
  Director (newReverseProxy target up eh) req =
  match options.PassHostHeader up with
  | Some false => overrideHost target (preserveRawTarget (rewriteRequestURL target req))
  | _ => preserveRawTarget (rewriteRequestURL target req)
  end.
Proof.
  unfold newReverseProxy.
  destruct eh, (options.FlushInterval up), (options.InsecureSkipTLSVerify up),
    (options.PassHostHeader up) as [[]|]; reflexivity.
Qed.

(** The library's rewrite touches the URL only. *)
Lemma rewriteRequestURL_frame target req :
  http.Host (rewriteRequestURL target req) = http.Host req /\
  http.RequestURI (rewriteRequestURL target req) = http.RequestURI req /\
  http.Header (rewriteRequestURL target req) = http.Header req /\
  url.Scheme (http.URL (rewriteRequestURL target req)) = url.Scheme target.
Proof. by repeat split. Qed.

(** The two wrappers change different fields, so their changes commute. *)
Lemma overrideHost_preserveRawTarget target req :
  overrideHost target (preserveRawTarget req) = preserveRawTarget (overrideHost target req).
Proof. reflexivity. Qed.

(** The WebSocket proxy has the library's rewrite alone as its Director:
    it leaves the Host of the request as the client sent it, whatever the
    pass-host-header flag. *)
Lemma websocket_director_keeps_host (u : url.URL) (skip : bool) (req : http.Request) :
  Director (newWebSocketReverseProxy u skip) req = rewriteRequestURL u req /\
  http.Host (Director (newWebSocketReverseProxy u skip) req) = http.Host req.
Proof. by destruct skip. Qed.

(** C8: the Director of the plain proxy is the ordered sequence of
    rewrite steps: the single-host rewrite, then the raw request target
    put in place of the parsed URL, then, with pass-host-header disabled,
    the Host override.  Each wrapper runs the Director it wraps first and
    then makes its own change, so with the override on, the outbound Host
    is the target's and the raw target is still in place. *)
Theorem director_is_ordered_composition (target : url.URL) (up : options.Upstream)
    (eh : option ProxyErrorHandler) (req : http.Request) :
  Director (newReverseProxy target up eh) req = applySteps (directorSteps target up) req /\
  (forall p r, Director (setProxyDirector p) r = preserveRawTarget (Director p r)) /\
  (forall p r, Director (setProxyUpstreamHostHeader p target) r =
               overrideHost target (Director p r)) /\
  (options.PassHostHeader up = Some false ->
     Director (newReverseProxy target up eh) req =
       overrideHost target (preserveRawTarget (rewriteRequestURL target req)) /\
     http.Host (Director (newReverseProxy target up eh) req) = url.Host target /\
     url.Opaque (http.URL (Director (newReverseProxy target up eh) req)) =
       http.RequestURI req).
Proof.
  split; [|split; [|split]].
  - rewrite Director_newReverseProxy. unfold directorSteps, applySteps.
    destruct (options.PassHostHeader up) as [[]|]; reflexivity.
  - reflexivity.
  - reflexivity.
  - intros D. rewrite Director_newReverseProxy, D. by repeat split.
Qed.

(** C3: with pass-host-header set to false the Host of the outbound
    request, after the plain proxy's Director, is the host of the
    configured target, whatever Host the client sent; with the flag true
    or unset it is the client's Host. *)
Theorem host_header_policy (up : options.Upstream) (u : url.URL)
    (sd : option options.SignatureData) (eh : option ProxyErrorHandler)
    (req : http.Request) :
  let out := Director (handler (newHTTPUpstreamProxy up u sd eh)) req in
  (options.PassHostHeader up = Some false -> http.Host out = url.Host u) /\
  (options.PassHostHeader up = Some true \/ options.PassHostHeader up = None ->
     http.Host out = http.Host req).
Proof.
  cbv zeta. unfold newHTTPUpstreamProxy; cbn [handler].
  rewrite Director_newReverseProxy. split.
  - intros ->. reflexivity.
  - intros [-> | ->]; reflexivity.
Qed.

(** C2: for a request whose raw target holds a percent-encoded slash, the
    plain proxy's Director puts the raw RequestURI into the URL's opaque
    form and clears the raw query and the force-query mark, so that the
    request target written for the upstream is the raw target itself
    (after the scheme and a colon when the raw target starts with two
    slashes), with the slash still encoded. *)
Theorem encoded_target_preserved (target : url.URL) (up : options.Upstream)
    (eh : option ProxyErrorHandler) (req : http.Request) :
  hasEncodedSlash (http.RequestURI req) = true ->
  let out := http.URL (Director (newReverseProxy target up eh) req) in
  url.Opaque out = http.RequestURI req /\
  url.RawQuery out = "" /\
  url.ForceQuery out = false /\
  URL_RequestURI out =
    (if HasPrefix (http.RequestURI req) "//"
     then url.Scheme target ++ ":" ++ http.RequestURI req
     else http.RequestURI req) /\
  hasEncodedSlash (URL_RequestURI out) = true.
Proof.
  intros Enc out.
  assert (Eo : url.Opaque out = http.RequestURI req /\ url.RawQuery out = "" /\
               url.ForceQuery out = false /\ url.Scheme out = url.Scheme target).
  { unfold out. rewrite Director_newReverseProxy.
    destruct (options.PassHostHeader up) as [[]|]; by repeat split. }
  destruct Eo as (Eo & Eq & Ef & Es).
  assert (Ne : http.RequestURI req ≠ "").
  { unfold hasEncodedSlash in Enc. apply orb_true_iff in Enc.
    destruct Enc as [C|C]; by apply Contains_nonempty in C. }
  assert (Eu : URL_RequestURI out =
               if HasPrefix (http.RequestURI req) "//"
               then url.Scheme target ++ ":" ++ http.RequestURI req
               else http.RequestURI req).
  { unfold URL_RequestURI. rewrite Eo, Eq, Ef, Es. cbn.
    destruct (String.eqb_spec (http.RequestURI req) ""); [done|reflexivity]. }
  repeat split; try assumption.
  rewrite Eu. unfold hasEncodedSlash in *.
  apply orb_true_iff in Enc. apply orb_true_iff.
  destruct (HasPrefix (http.RequestURI req) "//"); [|done].
  destruct Enc as [C|C]; [left|right]; by do 2 apply Contains_app_r.
Qed.

End DirectorClaims.

(** ** Transport and failures of the plain proxy *)

Section PlainProxyClaims.

Context `{Externals}.

Lemma Transport_newReverseProxy target up eh :
  Transport (newReverseProxy target up eh) =
  Some (if options.InsecureSkipTLSVerify up then insecureTransport else pooledTransport).
Proof.
  unfold newReverseProxy.
  destruct eh, (options.FlushInterval up), (options.InsecureSkipTLSVerify up),
    (options.PassHostHeader up) as [[]|]; reflexivity.
Qed.

Lemma ErrorHandler_newReverseProxy target up eh :
  ErrorHandler (newReverseProxy target up eh) = eh.
Proof.
  unfold newReverseProxy.
  destruct eh, (options.FlushInterval up), (options.InsecureSkipTLSVerify up),
    (options.PassHostHeader up) as [[]|]; reflexivity.
Qed.

(** C5: with insecure-skip-TLS-verify the plain proxy's transport is the
    zero transport but for a TLS configuration that skips certificate
    verification: no environment proxy, no dialer, no HTTP/2 attempt, and
    the idle-connection limit and the three timeouts at zero; otherwise it
    is the transport with the environment proxy, the HTTP/2 attempt, 100
    idle connections, and timeouts of 90, 10 and 1 seconds. *)
Theorem transport_policy (target : url.URL) (up : options.Upstream)
    (eh : option ProxyErrorHandler) :
  (options.InsecureSkipTLSVerify up = true ->
     exists tr,
       Transport (newReverseProxy target up eh) = Some tr /\
       http.TLSClientConfig tr = Some {| http.InsecureSkipVerify := true |} /\
       http.Proxy tr = http.Proxy http.zeroTransport /\
       http.DialContext tr = http.DialContext http.zeroTransport /\
       http.ForceAttemptHTTP2 tr = false /\
       http.MaxIdleConns tr = 0 /\
       http.IdleConnTimeout tr = 0 /\
       http.TLSHandshakeTimeout tr = 0 /\
       http.ExpectContinueTimeout tr = 0) /\
  (options.InsecureSkipTLSVerify up = false ->
     exists tr,
       Transport (newReverseProxy target up eh) = Some tr /\
       http.TLSClientConfig tr = None /\
       http.Proxy tr = Some http.ProxyFromEnvironment /\
       http.DialContext tr = Some {| http.Timeout := 0; http.KeepAlive := 0 |} /\
       http.ForceAttemptHTTP2 tr = true /\
       http.MaxIdleConns tr = 100 /\
       http.IdleConnTimeout tr = 90 * time.Second /\
       http.TLSHandshakeTimeout tr = 10 * time.Second /\
       http.ExpectContinueTimeout tr = 1 * time.Second).
Proof.
  split; intros E; rewrite Transport_newReverseProxy, E;
    eexists; (split; [reflexivity|]); by repeat split.
Qed.

(** C6, as the code has it: when the round trip to the upstream fails,
    the plain proxy returns after one call of an error handler.  With an
    error handler configured that handler is the one called, with the
    response writer, the outbound request (the Director's output with
    the headers the library sends) and the error, and the response is
    what it renders, so it has a body when the handler writes one.  With
    none configured the library's default is called, which writes the
    status 502 and no body. *)
Theorem upstream_failure_handled_once (target : url.URL) (up : options.Upstream)
    (eh : option ProxyErrorHandler) (rw : http.ResponseWriter)
    (req outreq : http.Request) (err : string) :
  let p := newReverseProxy target up eh in
  outboundRequest p req = inl outreq ->
  RoundTrip (Transport p) outreq = inr err ->
  exists x,
    forward p rw req = Returned tt x /\
    http.URL outreq = http.URL (Director p req) /\
    http.Host outreq = http.Host (Director p req) /\
    match eh with
    | Some render =>
        xRw x = render rw outreq err /\
        errorHandlerCalls (xTrace x) = [(true, err)] /\
        ((forall rw' r e, http.rwBody (render rw' r e) ≠ "") -> http.rwBody (xRw x) ≠ "")
    | None =>
        xRw x = http.WriteHeader rw http.StatusBadGateway /\
        errorHandlerCalls (xTrace x) = [(false, err)] /\
        http.rwBody (xRw x) = http.rwBody rw /\
        (http.rwStatus rw = None -> http.rwStatus (xRw x) = Some 502)
    end.
Proof.
  intros p O F. unfold forward. rewrite ReverseProxy_ServeHTTP_run.
  eexists. split; [reflexivity|]. unfold aftermath. cbn [xRw xTrace xReq start].
  rewrite O, F.
  assert (D : http.URL outreq = http.URL (Director p req) /\
              http.Host outreq = http.Host (Director p req)).
  { unfold outboundRequest in O.
    destruct (outboundHeader req _); simplify_eq. by split. }
  destruct D as [Du Dh]. split; [exact Du|]. split; [exact Dh|].
  unfold getErrorHandler, p. rewrite ErrorHandler_newReverseProxy.
  destruct eh as [render|]; cbn.
  - repeat split. intros B. apply B.
  - unfold defaultErrorHandler, http.WriteHeader.
    repeat split; destruct (http.rwStatus rw); try reflexivity. discriminate.
Qed.

End PlainProxyClaims.

(** ** The claims at sample inputs *)

(** C1 as the specification words it does not hold: the Connection value
    "keep-alive, Upgrade" contains the token upgrade and the Upgrade
    value is websocket, yet the request goes to the plain proxy. *)
Lemma connection_token_list_goes_to_plain_proxy :
  let req := chatRequest "keep-alive, Upgrade" in
  connectionContainsUpgrade req = true /\
  upgradeIsWebsocket req = true /\
  @routedTo refusing
    (@newHTTPUpstreamProxy refusing (sampleUpstream None None false) backend None None)
    freshWriter req = Some PlainProxy.
Proof. vm_compute. repeat split. Qed.

Lemma websocket_routing_witness :
  @routedTo refusing
    (@newHTTPUpstreamProxy refusing (sampleUpstream None None false) backend None None)
    freshWriter (chatRequest "Upgrade")
  = Some WebSocketProxy /\
  @routedTo refusing
    (@newHTTPUpstreamProxy refusing (sampleUpstream None None false) backend None None)
    freshWriter (chatRequest "close")
  = Some PlainProxy.
Proof.
  split.
  - apply (@websocket_routing refusing (sampleUpstream None None false) backend None None
             freshWriter (chatRequest "Upgrade")).
    + vm_compute. eexists. reflexivity.
    + discriminate.
    + vm_compute. reflexivity.
    + vm_compute. reflexivity.
  - apply (@websocket_routing refusing (sampleUpstream None None false) backend None None
             freshWriter (chatRequest "close")).
    + vm_compute. eexists. reflexivity.
    + vm_compute. reflexivity.
Defined.

Lemma encoded_target_witness :
  hasEncodedSlash "/a%2Fb?x=1" = true /\
  @URL_RequestURI refusing
    (http.URL (Director (@newReverseProxy refusing backend (sampleUpstream (Some false) None false) None)
                 encodedRequest))
  = "/a%2Fb?x=1".
Proof.
  split; [reflexivity|].
  apply (@encoded_target_preserved refusing backend (sampleUpstream (Some false) None false)
           None encodedRequest).
  reflexivity.
Defined.

Lemma host_header_witness :
  http.Host (Director (handler (@newHTTPUpstreamProxy refusing
                                  (sampleUpstream (Some false) None false) backend None None))
               encodedRequest) = "backend.local" /\
  http.Host (Director (handler (@newHTTPUpstreamProxy refusing
                                  (sampleUpstream None None false) backend None None))
               encodedRequest) = "client.example".
Proof.
  split.
  - apply (@host_header_policy refusing (sampleUpstream (Some false) None false) backend
             None None encodedRequest).
    reflexivity.
  - apply (@host_header_policy refusing (sampleUpstream None None false) backend
             None None encodedRequest).
    right. reflexivity.
Defined.

Lemma signature_witness :
  GetRequestScope (rootRequest someScope) = someScope /\
  exists x,
    @dispatch refusing
      (@newHTTPUpstreamProxy refusing (sampleUpstream None None false) backend
         (Some sampleKey) None)
      freshWriter (rootRequest someScope) = Returned tt x.
Proof.
  split; [reflexivity|].
  destruct (@signature_attached_before_handoff refusing (sampleUpstream None None false)
              backend (Some sampleKey) None freshWriter (rootRequest someScope)
              {| middleware.Upstream := "" |} eq_refl)
    as (x & _ & _ & _ & E & _).
  exists x. exact E.
Defined.

Lemma transport_witness :
  exists tr,
    Transport (@newReverseProxy refusing backend (sampleUpstream None None true) None) = Some tr /\
    http.MaxIdleConns tr = 0.
Proof.
  destruct (proj1 (@transport_policy refusing backend (sampleUpstream None None true) None)
              eq_refl) as (tr & E & _ & _ & _ & _ & M & _).
  exists tr. split; assumption.
Defined.

(** C6 as the specification words it does not hold: with no error
    handler configured and the upstream refusing the connection, the
    response has the status 502 and an empty body. *)
Lemma default_error_response_has_no_body :
  exists x,
    @forward refusing
      (@newReverseProxy refusing backend (sampleUpstream None None false) None)
      freshWriter encodedRequest = Returned tt x /\
    http.rwStatus (xRw x) = Some 502 /\
    http.rwBody (xRw x) = "" /\
    errorHandlerCalls (xTrace x) = [(false, "dial tcp: connection refused")].
Proof. eexists. vm_compute. repeat split. Qed.

Lemma upstream_failure_witness :
  exists x,
    @forward refusing
      (@newReverseProxy refusing backend (sampleUpstream None None false) (Some sampleErrorPage))
      freshWriter encodedRequest = Returned tt x /\
    errorHandlerCalls (xTrace x) = [(true, "dial tcp: connection refused")].
Proof.
  destruct (@upstream_failure_handled_once refusing backend (sampleUpstream None None false)
              (Some sampleErrorPage) freshWriter encodedRequest _
              "dial tcp: connection refused" eq_refl eq_refl)
    as (x & E & _ & _ & _ & C & _).
  exists x. split; assumption.
Defined.

Lemma scope_witness :
  @dispatch refusing
    (@newHTTPUpstreamProxy refusing (sampleUpstream None None false) backend None None)
    freshWriter (rootRequest None) = Panicked /\
  exists x,
    @dispatch refusing
      (@newHTTPUpstreamProxy refusing (sampleUpstream None None false) backend None None)
      freshWriter (rootRequest someScope) = Returned tt x /\
    GetRequestScope (xReq x) = Some {| middleware.Upstream := "backend" |}.
Proof.
  split.
  - apply (@scope_required_and_stamped_first refusing). reflexivity.
  - destruct (proj2 (@scope_required_and_stamped_first refusing
                       (@newHTTPUpstreamProxy refusing (sampleUpstream None None false)
                          backend None None)
                       freshWriter (rootRequest someScope))
                {| middleware.Upstream := "" |} eq_refl)
      as (x & _ & _ & _ & E & S & _).
    exists x. split; assumption.
Defined.

Lemma director_composition_witness :
  http.Host (Director (@newReverseProxy refusing backend (sampleUpstream (Some false) None false) None)
               encodedRequest) = "backend.local" /\
  url.Opaque (http.URL
    (Director (@newReverseProxy refusing backend (sampleUpstream (Some false) None false) None)
       encodedRequest)) = "/a%2Fb?x=1".
Proof.
  destruct (@director_is_ordered_composition refusing backend
              (sampleUpstream (Some false) None false) None
              encodedRequest) as (_ & _ & _ & D).
  destruct (D eq_refl) as (_ & Eh & Eo). split; assumption.
Defined.

Lemma websockets_disabled_witness :
  @routedTo refusing
    (@newHTTPUpstreamProxy refusing (sampleUpstream None (Some false) false) backend None None)
    freshWriter (chatRequest "Upgrade")
  = Some PlainProxy.
Proof.
  apply (proj2 (@websockets_disabled refusing (sampleUpstream None (Some false) false)
                  backend None None) eq_refl).
  vm_compute. eexists. reflexivity.
Defined.

Lemma gap_auth_witness :
  @dispatch refusing
    (@newHTTPUpstreamProxy refusing (sampleUpstream None None false) backend
       (Some sampleKey) None)
    freshWriter
    (setHeader (rootRequest someScope) (Header_Set ∅ "Gap-Auth" "forged"))
  =
  @dispatch refusing
    (@newHTTPUpstreamProxy refusing (sampleUpstream None None false) backend
       (Some sampleKey) None)
    freshWriter (rootRequest someScope).
Proof.
  apply (@gap_auth_taken_from_response_writer refusing (sampleUpstream None None false)
           backend sampleKey None freshWriter (rootRequest someScope)
           {| middleware.Upstream := "" |} eq_refl).
  vm_compute. reflexivity.
Defined.

(** * Further properties of the package *)

(** ** The WebSocket proxy *)

Section WebSocketProxy.

Context `{Externals}.

Lemma errorHandlerCalls_preparation h rw req :
  errorHandlerCalls (preparation h rw req) = [].
Proof. unfold preparation. by destruct (auth h). Qed.

Lemma chosen_websocket up u sd eh rw req :
  options.ProxyWebSockets up ≠ Some false ->
  upgradeRequested req = true ->
  chosen (newHTTPUpstreamProxy up u sd eh)
    (outbound (newHTTPUpstreamProxy up u sd eh) rw req) =
  (WebSocketProxy,
   newWebSocketReverseProxy (clearPath u) (options.InsecureSkipTLSVerify up)).
Proof.
  intros W Q. unfold chosen.
  rewrite newHTTPUpstreamProxy_wsHandler, outbound_upgradeRequested, Q.
  by destruct (options.ProxyWebSockets up) as [[]|].
Qed.

Lemma chosen_plain (h : httpUpstreamProxy) (r : http.Request) :
  fst (chosen h r) = PlainProxy -> snd (chosen h r) = handler h.
Proof.
  unfold chosen. destruct (wsHandler h); [|done].
  by destruct (upgradeRequested r).
Qed.

(** The WebSocket proxy is the library's single-host proxy and no more:
    its Director is the single-host rewrite alone, so the Host stays the
    client's and no raw target is put into the URL, whatever the
    pass-host-header flag; it has no transport of its own unless TLS
    verification is skipped; and it never has the error handler. *)
Theorem websocket_proxy_is_bare (up : options.Upstream) (u : url.URL)
    (sd : option options.SignatureData) (eh : option ProxyErrorHandler) :
  options.ProxyWebSockets up ≠ Some false ->
  exists ws,
    wsHandler (newHTTPUpstreamProxy up u sd eh) = Some ws /\
    (forall req,
       Director ws req = rewriteRequestURL (clearPath u) req /\
       http.Host (Director ws req) = http.Host req /\
       url.Opaque (http.URL (Director ws req)) = url.Opaque (http.URL req)) /\
    Transport ws =
      (if options.InsecureSkipTLSVerify up then Some insecureTransport else None) /\
    ErrorHandler ws = None.
Proof.
  intros W. eexists. split.
  - rewrite newHTTPUpstreamProxy_wsHandler.
    by destruct (options.ProxyWebSockets up) as [[]|].
  - unfold newWebSocketReverseProxy.
    by destruct (options.InsecureSkipTLSVerify up).
Qed.

(** A failed round trip of a request that went to the WebSocket proxy is
    answered by the library's default, status 502 and nothing written to
    the body, also when an error handler is configured: the configured
    handler is not called. *)
Theorem websocket_failure_bypasses_error_handler (up : options.Upstream)
    (u : url.URL) (sd : option options.SignatureData)
    (eh : option ProxyErrorHandler) (rw : http.ResponseWriter)
    (req outreq : http.Request) (sc : middleware.RequestScope) (err : string) :
  let h := newHTTPUpstreamProxy up u sd eh in
  let ws := newWebSocketReverseProxy (clearPath u) (options.InsecureSkipTLSVerify up) in
  GetRequestScope req = Some sc ->
  options.ProxyWebSockets up ≠ Some false ->
  upgradeRequested req = true ->
  outboundRequest ws (outbound h rw req) = inl outreq ->
  RoundTrip (Transport ws) outreq = inr err ->
  exists x,
    dispatch h rw req = Returned tt x /\
    xRw x = http.WriteHeader rw http.StatusBadGateway /\
    http.rwBody (xRw x) = http.rwBody rw /\
    errorHandlerCalls (xTrace x) = [(false, err)].
Proof.
  intros h ws E W Q O F.
  assert (Ews : ErrorHandler ws = None).
  { unfold ws, newWebSocketReverseProxy.
    by destruct (options.InsecureSkipTLSVerify up). }
  rewrite (dispatch_with_scope h rw req sc E).
  subst h. rewrite (chosen_websocket up u sd eh rw req W Q).
  cbn [fst snd]. fold ws.
  rewrite ReverseProxy_ServeHTTP_run. unfold aftermath. cbn [xReq xRw xTrace].
  rewrite O, F.
  eexists. split; [reflexivity|]. cbn [xRw xTrace].
  unfold getErrorHandler. rewrite Ews. split; [reflexivity|]. split.
  - unfold defaultErrorHandler, http.WriteHeader. by destruct (http.rwStatus rw).
  - unfold errorHandlerCalls. rewrite !omap_app.
    fold (errorHandlerCalls (preparation (newHTTPUpstreamProxy up u sd eh) rw req)).
    rewrite errorHandlerCalls_preparation. reflexivity.
Qed.

End WebSocketProxy.

(** ** Construction *)

Section Construction.

Context `{Externals}.

(** The flush interval of the plain proxy is the upstream's own when it
    has one and the package default otherwise, whatever the other
    options; the WebSocket proxy is never given one. *)
Theorem flush_interval_policy (up : options.Upstream) (u : url.URL)
    (sd : option options.SignatureData) (eh : option ProxyErrorHandler) :
  FlushInterval (handler (newHTTPUpstreamProxy up u sd eh)) =
    match options.FlushInterval up with
    | Some d => d
    | None => DefaultUpstreamFlushInterval
    end /\
  (forall ws, wsHandler (newHTTPUpstreamProxy up u sd eh) = Some ws ->
     FlushInterval ws = 0).
Proof.
  split.
  - unfold newHTTPUpstreamProxy, newReverseProxy; cbn [handler].
    destruct eh, (options.FlushInterval up), (options.InsecureSkipTLSVerify up),
      (options.PassHostHeader up) as [[]|]; reflexivity.
  - intros ws. rewrite newHTTPUpstreamProxy_wsHandler.
    unfold newWebSocketReverseProxy.
    destruct (options.ProxyWebSockets up) as [[]|],
      (options.InsecureSkipTLSVerify up); intros E; by simplify_eq.
Qed.

(** The path of the upstream URL has no part in the proxy that is built:
    two upstream URLs that differ in their path only give the same
    dispatcher. *)
Theorem upstream_path_ignored (up : options.Upstream) (u : url.URL) (p : string)
    (sd : option options.SignatureData) (eh : option ProxyErrorHandler) :
  newHTTPUpstreamProxy up (withPath u p) sd eh = newHTTPUpstreamProxy up u sd eh.
Proof. reflexivity. Qed.

(** Whatever scheme and host the client's URL names, the URL of the
    outbound request has the scheme and host of the upstream, on the plain
    proxy and on the WebSocket proxy alike. *)
Theorem outbound_url_targets_upstream (up : options.Upstream) (u : url.URL)
    (sd : option options.SignatureData) (eh : option ProxyErrorHandler)
    (req : http.Request) :
  let h := newHTTPUpstreamProxy up u sd eh in
  (url.Scheme (http.URL (Director (handler h) req)) = url.Scheme u /\
   url.Host (http.URL (Director (handler h) req)) = url.Host u) /\
  (forall ws, wsHandler h = Some ws ->
     url.Scheme (http.URL (Director ws req)) = url.Scheme u /\
     url.Host (http.URL (Director ws req)) = url.Host u).
Proof.
  cbv zeta. split.
  - unfold newHTTPUpstreamProxy; cbn [handler].
    rewrite Director_newReverseProxy.
    by destruct (options.PassHostHeader up) as [[]|].
  - intros ws. rewrite newHTTPUpstreamProxy_wsHandler.
    unfold newWebSocketReverseProxy.
    destruct (options.ProxyWebSockets up) as [[]|],
      (options.InsecureSkipTLSVerify up); intros E; by simplify_eq.
Qed.

End Construction.

(** ** The request target, for every request *)

Section RequestTarget.

Context `{Externals}.

Lemma directed_url target up eh req :
  let out := http.URL (Director (newReverseProxy target up eh) req) in
  url.Opaque out = http.RequestURI req /\ url.RawQuery out = "" /\
  url.ForceQuery out = false /\ url.Scheme out = url.Scheme target.
Proof.
  cbv zeta. rewrite Director_newReverseProxy.
  destruct (options.PassHostHeader up) as [[]|]; by repeat split.
Qed.

(** For every request with a raw target, the request target written for
    the upstream is that raw target (after the scheme and a colon when it
    starts with two slashes): the query of the parsed URL and the path and
    query of the upstream URL have no part in it. *)
Theorem raw_target_written_verbatim (target : url.URL) (up : options.Upstream)
    (eh : option ProxyErrorHandler) (req : http.Request) :
  http.RequestURI req ≠ "" ->
  URL_RequestURI (http.URL (Director (newReverseProxy target up eh) req)) =
    (if HasPrefix (http.RequestURI req) "//"
     then url.Scheme target ++ ":" ++ http.RequestURI req
     else http.RequestURI req) /\
  (forall (target' : url.URL) (up' : options.Upstream) (eh' : option ProxyErrorHandler),
     url.Scheme target' = url.Scheme target ->
     URL_RequestURI (http.URL (Director (newReverseProxy target' up' eh') req)) =
     URL_RequestURI (http.URL (Director (newReverseProxy target up eh) req))).
Proof.
  intros Ne.
  assert (W : forall t o e,
            URL_RequestURI (http.URL (Director (newReverseProxy t o e) req)) =
            if HasPrefix (http.RequestURI req) "//"
            then url.Scheme t ++ ":" ++ http.RequestURI req
            else http.RequestURI req).
  { intros t o e. destruct (directed_url t o e req) as (Eo & Eq & Ef & Es).
    unfold URL_RequestURI. rewrite Eo, Eq, Ef, Es. cbn.
    destruct (String.eqb_spec (http.RequestURI req) ""); [done|reflexivity]. }
  split; [apply W|].
  intros target' up' eh' Es. rewrite !W. by rewrite Es.
Qed.

(** A request without a raw target (an empty RequestURI) loses its query:
    the opaque form stays empty, the raw query is cleared all the same,
    and the target written is the escaped path alone. *)
Theorem empty_raw_target_drops_query (target : url.URL) (up : options.Upstream)
    (eh : option ProxyErrorHandler) (req : http.Request) :
  http.RequestURI req = "" ->
  let out := http.URL (Director (newReverseProxy target up eh) req) in
  url.Opaque out = "" /\
  url.RawQuery out = "" /\
  URL_RequestURI out =
    (if String.eqb (EscapedPath out) "" then "/" else EscapedPath out).
Proof.
  intros E out. destruct (directed_url target up eh req) as (Eo & Eq & Ef & _).
  fold out in Eo, Eq, Ef. rewrite E in Eo.
  repeat split; try assumption.
  unfold URL_RequestURI. by rewrite Eo, Eq, Ef.
Qed.

End RequestTarget.

(** ** What the dispatcher leaves alone *)

Section DispatcherFrame.

Context `{Externals}.

(** The dispatcher hands over the client's request with its method, URL,
    Host and raw target unchanged and, of the headers, at most Gap-Auth
    and the signature header changed (none at all without signing); the
    response writer reaches the chosen proxy as the dispatcher received
    it. *)
Theorem dispatcher_changes_two_headers_only (up : options.Upstream) (u : url.URL)
    (sd : option options.SignatureData) (eh : option ProxyErrorHandler)
    (rw : http.ResponseWriter) (req : http.Request) (sc : middleware.RequestScope) :
  GetRequestScope req = Some sc ->
  let h := newHTTPUpstreamProxy up u sd eh in
  exists t p out tr,
    routed h rw req = Some (t, out) /\
    dispatch h rw req =
      ReverseProxy_ServeHTTP p {| xReq := out; xRw := rw; xTrace := tr |} /\
    http.Method out = http.Method req /\
    http.URL out = http.URL req /\
    http.Host out = http.Host req /\
    http.RequestURI out = http.RequestURI req /\
    delete "Gap-Signature" (delete "Gap-Auth" (http.Header out)) =
      delete "Gap-Signature" (delete "Gap-Auth" (http.Header req)) /\
    (sd = None -> http.Header out = http.Header req).
Proof.
  intros E h. eexists _, _, _, _.
  split; [apply (routed_with_scope h rw req sc E)|].
  split; [apply (dispatch_with_scope h rw req sc E)|].
  unfold outbound, h. rewrite newHTTPUpstreamProxy_auth.
  destruct sd as [k|]; cbn [fmap option_fmap option_map].
  - repeat split; try discriminate.
    unfold signed, withGapAuth, stamped, Header_Set.
    cbn [http.Header setHeader setScope hmacauth.header hmacauth.NewHmacAuth].
    change (textproto.CanonicalMIMEHeaderKey "GAP-Auth") with "Gap-Auth".
    change (textproto.CanonicalMIMEHeaderKey SignatureHeader) with "Gap-Signature".
    apply map_eq. intros i.
    destruct (decide (i = "Gap-Signature")) as [->|N1];
      [by rewrite !lookup_delete_eq|].
    rewrite !(lookup_delete_ne _ "Gap-Signature") by done.
    destruct (decide (i = "Gap-Auth")) as [->|N2];
      [by rewrite !lookup_delete_eq|].
    rewrite !(lookup_delete_ne _ "Gap-Auth") by done.
    by rewrite !lookup_insert_ne.
  - by repeat split.
Qed.

(** Where a request goes depends on four things only: whether it carries
    its scope, the proxy-websockets flag, and the first values of its
    Connection and Upgrade headers.  Signing, the error handler, the
    upstream URL, the response writer, further values of the two headers
    and every other header have no part in it. *)
Theorem routing_depends_on_first_values_only
    (up up' : options.Upstream) (u u' : url.URL)
    (sd sd' : option options.SignatureData) (eh eh' : option ProxyErrorHandler)
    (rw rw' : http.ResponseWriter) (req req' : http.Request) :
  options.ProxyWebSockets up = options.ProxyWebSockets up' ->
  (is_Some (GetRequestScope req) <-> is_Some (GetRequestScope req')) ->
  Header_Get (http.Header req) "Connection" = Header_Get (http.Header req') "Connection" ->
  Header_Get (http.Header req) "Upgrade" = Header_Get (http.Header req') "Upgrade" ->
  routedTo (newHTTPUpstreamProxy up u sd eh) rw req =
  routedTo (newHTTPUpstreamProxy up' u' sd' eh') rw' req'.
Proof.
  intros W S C U.
  assert (Q : upgradeRequested req = upgradeRequested req').
  { unfold upgradeRequested. by rewrite C, U. }
  destruct (GetRequestScope req) as [sc|] eqn:E,
           (GetRequestScope req') as [sc'|] eqn:E'.
  - rewrite (routedTo_with_scope up u sd eh rw req sc E).
    rewrite (routedTo_with_scope up' u' sd' eh' rw' req' sc' E').
    by rewrite W, Q.
  - destruct (proj1 S) as [? ?]; [by eexists|discriminate].
  - destruct (proj2 S) as [? ?]; [by eexists|discriminate].
  - by rewrite !routedTo_without_scope.
Qed.

(** When the request went to the plain proxy and the round trip fails,
    the configured error handler is called once, with the response writer
    as the dispatcher received it and with the outbound request: the
    request after stamping, signing and the Director, with the headers
    the library sends, whose opaque URL is the raw target and whose scope
    is the stamped one; what the handler leaves is the response. *)
Theorem failure_handler_gets_outbound_request (up : options.Upstream) (u : url.URL)
    (sd : option options.SignatureData) (render : ProxyErrorHandler)
    (rw : http.ResponseWriter) (req outreq : http.Request)
    (sc : middleware.RequestScope) (err : string) :
  let h := newHTTPUpstreamProxy up u sd (Some render) in
  GetRequestScope req = Some sc ->
  routedTo h rw req = Some PlainProxy ->
  outboundRequest (handler h) (outbound h rw req) = inl outreq ->
  RoundTrip (Transport (handler h)) outreq = inr err ->
  exists x,
    dispatch h rw req = Returned tt x /\
    xRw x = render rw outreq err /\
    errorHandlerCalls (xTrace x) = [(true, err)] /\
    http.URL outreq = http.URL (Director (handler h) (outbound h rw req)) /\
    url.Opaque (http.URL outreq) = http.RequestURI req /\
    GetRequestScope outreq = Some {| middleware.Upstream := options.ID up |}.
Proof.
  intros h E R O F.
  assert (P : snd (chosen h (outbound h rw req)) = handler h).
  { apply chosen_plain. unfold routedTo in R.
    rewrite (routed_with_scope h rw req sc E) in R.
    cbn in R. by simplify_eq. }
  assert (Eh : ErrorHandler (handler h) = Some render).
  { unfold h, newHTTPUpstreamProxy; cbn [handler].
    apply ErrorHandler_newReverseProxy. }
  assert (D : http.URL outreq = http.URL (Director (handler h) (outbound h rw req)) /\
              http.Scope outreq = http.Scope (Director (handler h) (outbound h rw req))).
  { unfold outboundRequest in O.
    destruct (outboundHeader _ _); simplify_eq. by split. }
  destruct D as [Du Ds].
  rewrite (dispatch_with_scope h rw req sc E), P.
  rewrite ReverseProxy_ServeHTTP_run. unfold aftermath. cbn [xReq xRw xTrace].
  rewrite O, F.
  eexists. split; [reflexivity|]. cbn [xRw xTrace].
  unfold getErrorHandler. rewrite Eh.
  split; [reflexivity|]. split; [|split; [exact Du|split]].
  - unfold errorHandlerCalls. rewrite !omap_app.
    fold (errorHandlerCalls (preparation h rw req)).
    rewrite errorHandlerCalls_preparation. reflexivity.
  - rewrite Du. unfold h, newHTTPUpstreamProxy; cbn [handler].
    destruct (directed_url (clearPath u) up (Some render)
                (outbound (newHTTPUpstreamProxy up u sd (Some render)) rw req))
      as (Eo & _).
    unfold newHTTPUpstreamProxy in Eo. rewrite Eo.
    unfold outbound; cbn [auth]. by destruct sd.
  - unfold GetRequestScope. rewrite Ds.
    unfold h, newHTTPUpstreamProxy; cbn [handler].
    rewrite Director_newReverseProxy.
    unfold outbound; cbn [auth upstream].
    by destruct sd, (options.PassHostHeader up) as [[]|].
Qed.

End DispatcherFrame.

Section WriterFrame.

Context `{Externals}.

(** Of the response writer, only the first Gap-Auth value has a part in
    the request that is handed over and in where it goes. *)
Theorem outbound_reads_writer_gap_auth_only (h : httpUpstreamProxy)
    (rw rw' : http.ResponseWriter) (req : http.Request) :
  Header_Get (http.rwHeader rw) "GAP-Auth" = Header_Get (http.rwHeader rw') "GAP-Auth" ->
  routed h rw req = routed h rw' req.
Proof.
  intros G. destruct (GetRequestScope req) as [sc|] eqn:E.
  - rewrite (routed_with_scope h rw req sc E), (routed_with_scope h rw' req sc E).
    assert (O : outbound h rw req = outbound h rw' req).
    { unfold outbound, withGapAuth. by rewrite G. }
    by rewrite O.
  - by rewrite !routed_without_scope.
Qed.

End WriterFrame.

(** ** The further properties at sample inputs *)

Lemma websocket_proxy_bare_witness :
  exists ws,
    wsHandler (@newHTTPUpstreamProxy refusing (sampleUpstream (Some false) None false)
                 backend None (Some sampleErrorPage)) = Some ws /\
    http.Host (Director ws encodedRequest) = "client.example" /\
    ErrorHandler ws = None.
Proof.
  destruct (@websocket_proxy_is_bare refusing (sampleUpstream (Some false) None false)
              backend None (Some sampleErrorPage) ltac:(discriminate))
    as (ws & E & D & _ & N).
  exists ws. split; [exact E|]. split; [|exact N].
  destruct (D encodedRequest) as (_ & Eh & _). exact Eh.
Defined.

Lemma websocket_failure_witness :
  exists x,
    @dispatch refusing
      (@newHTTPUpstreamProxy refusing (sampleUpstream None None false) backend None
         (Some sampleErrorPage))
      freshWriter (chatRequest "Upgrade") = Returned tt x /\
    http.rwBody (xRw x) = "" /\
    errorHandlerCalls (xTrace x) = [(false, "dial tcp: connection refused")].
Proof.
  destruct (@websocket_failure_bypasses_error_handler refusing
              (sampleUpstream None None false) backend None (Some sampleErrorPage)
              freshWriter (chatRequest "Upgrade") _ {| middleware.Upstream := "" |}
              "dial tcp: connection refused"
              eq_refl ltac:(discriminate) ltac:(vm_compute; reflexivity) eq_refl eq_refl)
    as (x & E & _ & B & C).
  exists x. repeat split; assumption.
Defined.

Lemma flush_interval_witness :
  FlushInterval (handler (@newHTTPUpstreamProxy refusing (sampleUpstream None None false)
                            backend None None)) = 1000000000 /\
  FlushInterval (@newWebSocketReverseProxy refusing (clearPath backend) false) = 0.
Proof.
  destruct (@flush_interval_policy refusing (sampleUpstream None None false)
              backend None None) as (P & W).
  split; [exact P|]. apply W. reflexivity.
Defined.

Lemma outbound_url_witness :
  url.Host (http.URL (Director (@newWebSocketReverseProxy refusing (clearPath backend) false)
                        encodedRequest)) = "backend.local".
Proof.
  apply (proj2 (@outbound_url_targets_upstream refusing (sampleUpstream None None false)
                  backend None None encodedRequest)).
  reflexivity.
Defined.

Lemma raw_target_witness :
  @URL_RequestURI refusing
    (http.URL (Director (@newReverseProxy refusing backendWithQuery
                           (sampleUpstream None None false) None)
                 (rootRequest someScope))) = "/".
Proof.
  apply (proj1 (@raw_target_written_verbatim refusing backendWithQuery
                  (sampleUpstream None None false) None (rootRequest someScope)
                  ltac:(discriminate))).
Defined.

Lemma empty_raw_target_witness :
  @URL_RequestURI refusing
    (http.URL (Director (@newReverseProxy refusing (clearPath backend)
                           (sampleUpstream None None false) None) synthetic)) = "/a/b".
Proof.
  destruct (@empty_raw_target_drops_query refusing (clearPath backend)
              (sampleUpstream None None false) None synthetic eq_refl)
    as (_ & _ & E).
  rewrite E. reflexivity.
Defined.

Lemma dispatcher_frame_witness :
  exists t out,
    @routed refusing
      (@newHTTPUpstreamProxy refusing (sampleUpstream None None false) backend
         (Some sampleKey) None)
      freshWriter chatRequestTwoValues = Some (t, out) /\
    http.Host out = "client.example" /\
    http.RequestURI out = "/chat".
Proof.
  destruct (@dispatcher_changes_two_headers_only refusing (sampleUpstream None None false)
              backend (Some sampleKey) None freshWriter chatRequestTwoValues
              {| middleware.Upstream := "" |} eq_refl)
    as (t & p & out & tr & R & _ & _ & _ & Eh & Eu & _).
  exists t, out. repeat split; assumption.
Defined.

Lemma routing_first_values_witness :
  @routedTo refusing
    (@newHTTPUpstreamProxy refusing (sampleUpstream None None false) backend
       (Some sampleKey) (Some sampleErrorPage))
    (authWriter "a") chatRequestTwoValues
  =
  @routedTo refusing
    (@newHTTPUpstreamProxy refusing (sampleUpstream (Some false) None true)
       backendWithQuery None None)
    freshWriter (chatRequest "Upgrade").
Proof.
  apply (@routing_depends_on_first_values_only refusing).
  - reflexivity.
  - split; intros _; vm_compute; eexists; reflexivity.
  - vm_compute. reflexivity.
  - vm_compute. reflexivity.
Defined.

Lemma failure_handler_witness :
  exists x,
    @dispatch refusing
      (@newHTTPUpstreamProxy refusing (sampleUpstream None None false) backend
         (Some sampleKey) (Some sampleErrorPage))
      freshWriter encodedRequest = Returned tt x /\
    errorHandlerCalls (xTrace x) = [(true, "dial tcp: connection refused")].
Proof.
  destruct (@failure_handler_gets_outbound_request refusing
              (sampleUpstream None None false) backend (Some sampleKey) sampleErrorPage
              freshWriter encodedRequest _ {| middleware.Upstream := "" |}
              "dial tcp: connection refused"
              eq_refl ltac:(vm_compute; reflexivity) eq_refl eq_refl)
    as (x & E & _ & C & _).
  exists x. split; assumption.
Defined.

Lemma writer_gap_auth_witness :
  @routed refusing
    (@newHTTPUpstreamProxy refusing (sampleUpstream None None false) backend
       (Some sampleKey) None)
    (authWriter "a") encodedRequest
  =
  @routed refusing
    (@newHTTPUpstreamProxy refusing (sampleUpstream None None false) backend
       (Some sampleKey) None)
    (authWriter "b") encodedRequest.
Proof.
  apply (@outbound_reads_writer_gap_auth_only refusing).
  vm_compute. reflexivity.
Defined.
